(** * Authentication and session lifecycle of the Hytale server container

    A shallow embedding of the TypeScript modules [TokenStore],
    [OAuthClient], [SessionManager], [ProfileManager], of the commands
    [refresh], [session], [profile] and [export] of [AuthCli] and of
    [Config], followed by the properties the specification states about
    them and by further properties of the code.

    Conventions of the embedding.
    - A TypeScript [number] holding a count of seconds or milliseconds is
      a [Z]; [Math.floor (x / 1000)] is [x / 1000] ([Z.div] rounds down).
    - An interface is a record; a field declared with [?] has an [option]
      type, [None] standing for [undefined] (and for JSON [null]).
    - An [async] method is a computation over an explicit [World]: the
      clock read by [Date.now ()], the four files of the token directory,
      the remote servers and the requests sent to them so far.  A
      computation returns, throws, or leaves the process with
      [process.exit].
    - [JSON.parse (JSON.stringify v)] gives back [v]: a file is modelled
      by the document it holds, at the type the code reads it at (the
      token store is the only writer of its files).  Likewise a JSON body
      of a response is taken at the type the code casts it to.
    - Requests take no time: the clock moves in [Bun.sleep] only.
    - Calls to the logger and to [console.log] change neither the state
      nor the control flow and are left out; so are [mkdir] and [chmod]. *)

From Stdlib Require Import ZArith Lia Bool List String Ascii.
From Stdlib Require Import DecimalString DecimalN DecimalFacts.
Import ListNotations.

Local Open Scope string_scope.
Local Open Scope Z_scope.

(** ** Fragments of JavaScript *)

Module JS.

(** Truthiness of a value of type [string | undefined]: [undefined] and
    the empty string are falsy. *)
Definition truthy (v : option string) : bool :=
  match v with
  | Some s => negb (String.eqb s "")
  | None => false
  end.

(** [a ?? b] *)
Definition nullish {A : Type} (a : option A) (b : A) : A :=
  match a with
  | Some x => x
  | None => b
  end.

(** The string in a field that the code has found truthy, and [x!]: the
    two callers of [createTokens] only pass responses whose tokens are
    set.  (On an unset field, which no call reaches, the empty string.) *)
Definition non_null (v : option string) : string := nullish v "".

(** The character class [\d]. *)
Definition is_digit (c : ascii) : bool :=
  let n := N_of_ascii c in ((48 <=? n) && (n <=? 57))%N.

Fixpoint all_digits (s : string) : bool :=
  match s with
  | EmptyString => true
  | String c s' => is_digit c && all_digits s'
  end.

(** [/^\d+$/.test (s)] *)
Definition test_digits (s : string) : bool :=
  match s with
  | EmptyString => false
  | String _ _ => all_digits s
  end.

Fixpoint parse_digits (acc : Z) (s : string) : Z :=
  match s with
  | EmptyString => acc
  | String c s' => parse_digits (10 * acc + (Z.of_N (N_of_ascii c) - 48)) s'
  end.

(** [Number.parseInt (s, 10)] on a string of decimal digits.  The value
    is exact here; JavaScript rounds it above 2^53, where it is far
    beyond the length of any array either way. *)
Definition parseInt (s : string) : Z := parse_digits 0 s.

(** The decimal numeral of a natural number, as [String (n)] prints it. *)
Definition decimal (n : N) : string := NilZero.string_of_uint (N.to_uint n).




(** [s.toLowerCase ()] on the bytes of [s]: the ASCII capitals are
    lowered.  (Strings are taken as UTF-8; no character outside ASCII
    lowers to an ASCII letter other than [i], [k] and [s], so that
    comparing the result with ["true"] is exact.) *)
Definition lower_ascii (c : ascii) : ascii :=
  let n := N_of_ascii c in
  if ((65 <=? n) && (n <=? 90))%N then ascii_of_N (n + 32) else c.

Fixpoint toLowerCase (s : string) : string :=
  match s with
  | EmptyString => EmptyString
  | String c s' => String (lower_ascii c) (toLowerCase s')
  end.

(** The white space and line terminators that [parseInt] skips at the
    start of its argument, in UTF-8: TAB, LF, VT, FF, CR, SP; U+00A0;
    U+1680; U+2000 to U+200A, U+2028, U+2029, U+202F; U+205F; U+3000;
    U+FEFF. *)
Fixpoint trimStart (s : string) : string :=
  match s with
  | String c s1 =>
      let n := N_of_ascii c in
      if ((9 <=? n) && (n <=? 13) || (n =? 32))%N then trimStart s1
      else
        match s1 with
        | String c1 s2 =>
            let n1 := N_of_ascii c1 in
            if ((n =? 194) && (n1 =? 160))%N then trimStart s2
            else
              match s2 with
              | String c2 s3 =>
                  let n2 := N_of_ascii c2 in
                  if ((n =? 225) && (n1 =? 154) && (n2 =? 128)
                      || (n =? 226) && (n1 =? 128)
                         && ((128 <=? n2) && (n2 <=? 138)
                             || (n2 =? 168) || (n2 =? 169) || (n2 =? 175))
                      || (n =? 226) && (n1 =? 129) && (n2 =? 159)
                      || (n =? 227) && (n1 =? 128) && (n2 =? 128)
                      || (n =? 239) && (n1 =? 187) && (n2 =? 191))%N
                  then trimStart s3
                  else s
              | EmptyString => s
              end
        | EmptyString => s
        end
  | EmptyString => s
  end.

(** The longest prefix of decimal digits. *)
Fixpoint leading_digits (s : string) : string :=
  match s with
  | String c s' => if is_digit c then String c (leading_digits s') else EmptyString
  | EmptyString => EmptyString
  end.

(** [Number.parseInt (s, 10)] on any string, [None] standing for [NaN]:
    white space is skipped, a sign is read, then as many decimal digits
    as there are; what follows them is ignored. *)
Definition parseInt10 (s : string) : option Z :=
  let s := trimStart s in
  let '(negative, s) :=
    match s with
    | String c s' =>
        if Ascii.eqb c "-" then (true, s')
        else if Ascii.eqb c "+" then (false, s')
        else (false, s)
    | EmptyString => (false, s)
    end in
  let digits := leading_digits s in
  match digits with
  | EmptyString => None
  | String _ _ =>
      Some (if negative then - parse_digits 0 digits
            else parse_digits 0 digits)
  end.

(** The one-character string holding a double quote. *)
Definition quote : string := String (ascii_of_nat 34) EmptyString.

End JS.

(** The platform functions the code calls and this development leaves
    open: [Date.parse] gives the time value of a date string in
    milliseconds, [None] standing for [NaN]. *)
Class Runtime := { Date_parse : string -> option Z }.

(** ** Types ([src/types]) *)

Module TokenResponse.
Record t := mk {
  access_token : option string;
  refresh_token : option string;
  expires_in : option Z;
  token_type : option string;
  scope : option string;
  error : option string;
  error_description : option string
}.
End TokenResponse.

Module OAuthTokens.
Record t := mk {
  accessToken : string;
  refreshToken : string;
  expiresAt : Z;
  createdAt : Z
}.
End OAuthTokens.

Module DeviceCodeState.
Record t := mk {
  deviceCode : string;
  expiresIn : Z;
  interval : Z
}.
End DeviceCodeState.

Module Profile.
Record t := mk {
  uuid : string;
  username : string
}.
End Profile.

Module ProfilesResponse.
Record t := mk {
  owner : string;
  profiles : list Profile.t
}.
End ProfilesResponse.

Module SelectedProfile.
Record t := mk {
  uuid : string;
  username : string;
  selectedAt : Z
}.
End SelectedProfile.

Module SessionTokens.
Record t := mk {
  sessionToken : string;
  identityToken : string;
  expiresAt : string;
  expiresEpoch : Z;
  createdAt : Z
}.
End SessionTokens.

Module SessionResponse.
Record t := mk {
  sessionToken : option string;
  identityToken : option string;
  expiresAt : option string;
  error : option string;
  error_description : option string;
  message : option string
}.
End SessionResponse.

(** The object that [saveOAuthTokens] serialises and that
    [loadOAuthTokens] reads back field by field (the result of
    [JSON.parse] is untyped there, every field may be unset). *)
Module OAuthFile.
Record t := mk {
  access_token : option string;
  refresh_token : option string;
  expires_at : option Z;
  created_at : option Z
}.
End OAuthFile.

(** ** The world *)

(** The errors the code throws, one constructor for each [throw] the
    modules contain (its message in the comment) and for each exception
    raised by the platform. *)
Inductive Error :=
| DeviceCodeTimeout                       (* Device code expired (timeout) *)
| DeviceCodeExpired                       (* Device code expired *)
| AuthorizationDenied                     (* Authorization denied *)
| TokenError (error : string)             (* Token error: ${error} *)
| TokenRefreshFailed (error : string)     (* Token refresh failed: ${error} *)
| NoAccessToken                           (* No access token in refresh response *)
| GetProfilesFailed (status : Z)          (* Failed to get profiles: HTTP ${status} *)
| CreateSessionFailed (error detail : string)
                                          (* Failed to create session: ${error} - ${detail} *)
| InvalidSessionResponse                  (* Invalid session response: missing tokens *)
| InvalidProfileNumber (count : nat)      (* Invalid profile number. Valid range: 1-${count} *)
| ProfileNotFound (selector : string)     (* Profile with UUID '${selector}' not found *)
| TypeError                               (* a property read on undefined *)
| FetchFailed                             (* fetch rejected: no response *)
| JsonSyntaxError.                        (* response.json () rejected *)

(** The code throws plain [Error] objects, told apart by their message;
    the specification (sections 4 and 7) names kinds of errors.  [kind]
    gives each error the name the specification uses for it. *)
Inductive ErrorKind :=
| ProtocolError | ExpiredGrant | AccessDenied | RefreshFailed
| SessionError | MalformedResponse | HttpError (status : Z)
| InvalidIndex | NotFound | Unclassified.

Definition kind (e : Error) : ErrorKind :=
  match e with
  | DeviceCodeTimeout | DeviceCodeExpired => ExpiredGrant
  | AuthorizationDenied => AccessDenied
  | TokenError _ => ProtocolError
  | TokenRefreshFailed _ | NoAccessToken => RefreshFailed
  | GetProfilesFailed status => HttpError status
  | CreateSessionFailed _ _ => SessionError
  | InvalidSessionResponse => MalformedResponse
  | InvalidProfileNumber _ => InvalidIndex
  | ProfileNotFound _ => NotFound
  | TypeError | FetchFailed | JsonSyntaxError => Unclassified
  end.

(** What a file of the token directory holds: a document, or text that
    [readFile] or [JSON.parse] rejects. *)
Inductive File (A : Type) :=
| Unreadable
| Holds (doc : A).
Arguments Unreadable {A}.
Arguments Holds {A} doc.

(** The four files of [Paths] the token store works on. *)
Inductive Path :=
| OAUTH_TOKEN_FILE | SESSION_TOKEN_FILE | PROFILE_CACHE_FILE | SELECTED_PROFILE_FILE.

(** The token directory; [None] is a file that does not exist.
    [written] lists the files written so far, the latest first. *)
Record Store := mkStore {
  oauth_tokens : option (File OAuthFile.t);
  session_tokens : option (File SessionTokens.t);
  profiles_cache : option (File ProfilesResponse.t);
  selected_profile : option (File SelectedProfile.t);
  written : list Path
}.

(** The requests the modules send. *)
Inductive Request :=
| DeviceToken (device_code : string)            (* POST TOKEN_URL, device_code grant *)
| RefreshToken (refresh_token : string)         (* POST TOKEN_URL, refresh_token grant *)
| GetProfiles (accessToken : string)            (* GET PROFILES_URL *)
| SessionNew (accessToken profileUuid : string) (* POST SESSION_NEW_URL *)
| SessionRefresh (sessionToken : string)        (* POST SESSION_REFRESH_URL *)
| SessionDelete (sessionToken : string).        (* DELETE SESSION_DELETE_URL *)

(** What [fetch] gives: no response at all, or a status and a body,
    [None] being a body that is not JSON ([response.json ()] rejects). *)
Inductive Reply (A : Type) :=
| Unreachable
| Http (status : Z) (body : option A).
Arguments Unreachable {A}.
Arguments Http {A} status body.

(** [response.ok] *)
Definition ok (status : Z) : bool := (200 <=? status) && (status <=? 299).

(** The remote servers.  Each answer may depend on every request sent so
    far; the list starts with the request being answered. *)
Record Server := mkServer {
  token_endpoint : list Request -> Reply TokenResponse.t;
  profiles_endpoint : list Request -> Reply ProfilesResponse.t;
  session_endpoint : list Request -> Reply SessionResponse.t
}.

Record World := mkWorld {
  clock : Z;                (* Date.now (), milliseconds *)
  store : Store;
  remote : Server;
  sent : list Request       (* the latest first *)
}.

(** [Math.floor (Date.now () / 1000)] *)
Definition now (w : World) : Z := clock w / 1000.

(** ** Computations *)

Inductive Outcome (A : Type) :=
| Return (a : A)
| Throw (e : Error)
| Exit (code : Z).
Arguments Return {A} a.
Arguments Throw {A} e.
Arguments Exit {A} code.

Definition M (A : Type) : Type := World -> Outcome A * World.

Definition ret {A} (a : A) : M A := fun w => (Return a, w).

Definition bind {A B} (m : M A) (k : A -> M B) : M B :=
  fun w =>
    match m w with
    | (Return a, w') => k a w'
    | (Throw e, w') => (Throw e, w')
    | (Exit c, w') => (Exit c, w')
    end.

Definition throw {A} (e : Error) : M A := fun w => (Throw e, w).

Definition exit {A} (code : Z) : M A := fun w => (Exit code, w).

Notation "x <- m ;; k" := (bind m (fun x => k))
  (at level 61, m at next level, right associativity).
Notation "m ;;; k" := (bind m (fun _ => k))
  (at level 61, right associativity).

(** [Math.floor (Date.now () / 1000)] as a computation. *)
Definition epoch_seconds : M Z := fun w => (Return (now w), w).

(** [await Bun.sleep (ms)]: time passes; a negative delay does not wait. *)
Definition sleep (ms : Z) : M unit :=
  fun w => (Return tt,
            mkWorld (clock w + Z.max 0 ms) (store w) (remote w) (sent w)).

Definition modify_store (f : Store -> Store) : M unit :=
  fun w => (Return tt, mkWorld (clock w) (f (store w)) (remote w) (sent w)).

(** [await fetch (...)]: the request is sent; without a response the
    promise rejects. *)
Definition fetch {A} (endpoint : Server -> list Request -> Reply A)
    (r : Request) : M (Z * option A) :=
  fun w =>
    let history := r :: sent w in
    let w' := mkWorld (clock w) (store w) (remote w) history in
    match endpoint (remote w) history with
    | Unreachable => (Throw FetchFailed, w')
    | Http status body => (Return (status, body), w')
    end.

(** [await response.json ()] *)
Definition json {A} (response : Z * option A) : M A :=
  match snd response with
  | None => throw JsonSyntaxError
  | Some data => ret data
  end.

Definition get_store : M Store := fun w => (Return (store w), w).

(** ** [TokenStore]: persistent storage for all tokens *)

Module TokenStore.

(** [writeFile (path, JSON.stringify (doc, null, 2))] for each of the
    four files. *)
Definition write_oauth (doc : OAuthFile.t) (s : Store) : Store :=
  mkStore (Some (Holds doc)) (session_tokens s) (profiles_cache s)
          (selected_profile s) (OAUTH_TOKEN_FILE :: written s).

Definition write_session (doc : SessionTokens.t) (s : Store) : Store :=
  mkStore (oauth_tokens s) (Some (Holds doc)) (profiles_cache s)
          (selected_profile s) (SESSION_TOKEN_FILE :: written s).

Definition write_profiles (doc : ProfilesResponse.t) (s : Store) : Store :=
  mkStore (oauth_tokens s) (session_tokens s) (Some (Holds doc))
          (selected_profile s) (PROFILE_CACHE_FILE :: written s).

Definition write_selected (doc : SelectedProfile.t) (s : Store) : Store :=
  mkStore (oauth_tokens s) (session_tokens s) (profiles_cache s)
          (Some (Holds doc)) (SELECTED_PROFILE_FILE :: written s).

(** [existsSync], [readFile] and [JSON.parse] inside [try]: a missing
    file and a failed read or parse both give [null]. *)
Definition read {A} (file : option (File A)) : option A :=
  match file with
  | None => None
  | Some Unreadable => None
  | Some (Holds doc) => Some doc
  end.

Definition saveOAuthTokens (tokens : OAuthTokens.t) : M unit :=
  let data :=
    OAuthFile.mk (Some (OAuthTokens.accessToken tokens))
                 (Some (OAuthTokens.refreshToken tokens))
                 (Some (OAuthTokens.expiresAt tokens))
                 (Some (OAuthTokens.createdAt tokens)) in
  modify_store (write_oauth data).

Definition loadOAuthTokens : M (option OAuthTokens.t) :=
  s <- get_store ;;
  match read (oauth_tokens s) with
  | None => ret None
  | Some data =>
      if negb (JS.truthy (OAuthFile.access_token data))
         || negb (JS.truthy (OAuthFile.refresh_token data))
      then ret None
      else
        seconds <- epoch_seconds ;;
        ret (Some (OAuthTokens.mk
                     (JS.non_null (OAuthFile.access_token data))
                     (JS.non_null (OAuthFile.refresh_token data))
                     (JS.nullish (OAuthFile.expires_at data) 0)
                     (JS.nullish (OAuthFile.created_at data) seconds)))
  end.

Definition saveProfiles (profiles : ProfilesResponse.t) : M unit :=
  modify_store (write_profiles profiles).

Definition loadProfiles : M (option ProfilesResponse.t) :=
  s <- get_store ;; ret (read (profiles_cache s)).

Definition saveSelectedProfile (profile : SelectedProfile.t) : M unit :=
  modify_store (write_selected profile).

Definition loadSelectedProfile : M (option SelectedProfile.t) :=
  s <- get_store ;; ret (read (selected_profile s)).

Definition saveSessionTokens (tokens : SessionTokens.t) : M unit :=
  modify_store (write_session tokens).

Definition loadSessionTokens : M (option SessionTokens.t) :=
  s <- get_store ;; ret (read (session_tokens s)).

(** [rm (f, { force: true })] on the four files. *)
Definition clearAll : M unit :=
  modify_store (fun s => mkStore None None None None (written s)).

End TokenStore.

(** ** [OAuthClient]: the RFC 8628 device code flow *)

Module OAuthClient.

Definition REFRESH_BUFFER : Z := 300.

Definition createTokens (data : TokenResponse.t) : M OAuthTokens.t :=
  seconds <- epoch_seconds ;;
  ret (OAuthTokens.mk
         (JS.non_null (TokenResponse.access_token data))
         (JS.non_null (TokenResponse.refresh_token data))
         (seconds + JS.nullish (TokenResponse.expires_in data) 3600)
         seconds).

(** How one turn of the loop of [pollForToken] ends when it does not
    throw: [continue] (or the end of the body) with the interval to
    use from then on, or [return tokens]. *)
Inductive Poll :=
| Retry (interval : Z)
| Issued (tokens : OAuthTokens.t).

(** The body of the [while] loop, from [Bun.sleep] on. *)
Definition pollOnce (state : DeviceCodeState.t) (interval : Z) : M Poll :=
  sleep (interval * 1000) ;;;
  response <- fetch token_endpoint
                (DeviceToken (DeviceCodeState.deviceCode state)) ;;
  data <- json response ;;
  if JS.truthy (TokenResponse.error data) then
    let error := JS.non_null (TokenResponse.error data) in
    if String.eqb error "authorization_pending" then ret (Retry interval)
    else if String.eqb error "slow_down" then ret (Retry (interval + 5))
    else if String.eqb error "expired_token" then throw DeviceCodeExpired
    else if String.eqb error "access_denied" then throw AuthorizationDenied
    else throw (TokenError error)
  else if JS.truthy (TokenResponse.access_token data)
          && JS.truthy (TokenResponse.refresh_token data) then
    tokens <- createTokens data ;;
    TokenStore.saveOAuthTokens tokens ;;;
    ret (Issued tokens)
  else ret (Retry interval).

(** [while (elapsed < state.expiresIn) { ... }] and the [throw] after
    it.  [fuel] bounds the number of turns; [None] is a loop that has
    not ended within it. *)
Fixpoint pollLoop (fuel : nat) (state : DeviceCodeState.t)
    (elapsed interval : Z) (w : World)
  : option (Outcome OAuthTokens.t * World) :=
  match fuel with
  | O => None
  | S fuel' =>
      if elapsed <? DeviceCodeState.expiresIn state then
        match pollOnce state interval w with
        | (Return (Retry interval'), w') =>
            pollLoop fuel' state (elapsed + interval) interval' w'
        | (Return (Issued tokens), w') => Some (Return tokens, w')
        | (Throw e, w') => Some (Throw e, w')
        | (Exit c, w') => Some (Exit c, w')
        end
      else Some (Throw DeviceCodeTimeout, w)
  end.

Definition pollForToken (fuel : nat) (state : DeviceCodeState.t) (w : World)
  : option (Outcome OAuthTokens.t * World) :=
  pollLoop fuel state 0 (DeviceCodeState.interval state) w.

Definition refreshToken (refreshToken : string) : M OAuthTokens.t :=
  response <- fetch token_endpoint (RefreshToken refreshToken) ;;
  data <- json response ;;
  if JS.truthy (TokenResponse.error data) then
    throw (TokenRefreshFailed (JS.non_null (TokenResponse.error data)))
  else if negb (JS.truthy (TokenResponse.access_token data)) then
    throw NoAccessToken
  else
    tokens <- createTokens
                (TokenResponse.mk
                   (TokenResponse.access_token data)
                   (Some (JS.nullish (TokenResponse.refresh_token data)
                                     refreshToken))
                   (TokenResponse.expires_in data)
                   (TokenResponse.token_type data)
                   (TokenResponse.scope data)
                   (TokenResponse.error data)
                   (TokenResponse.error_description data)) ;;
    TokenStore.saveOAuthTokens tokens ;;;
    ret tokens.

Definition getProfiles (accessToken : string) : M ProfilesResponse.t :=
  response <- fetch profiles_endpoint (GetProfiles accessToken) ;;
  if negb (ok (fst response)) then throw (GetProfilesFailed (fst response))
  else
    profiles <- json response ;;
    TokenStore.saveProfiles profiles ;;;
    ret profiles.

Definition needsRefresh (expiresAt : Z) : M bool :=
  seconds <- epoch_seconds ;;
  ret (seconds >=? expiresAt - REFRESH_BUFFER).

End OAuthClient.

(** ** [SessionManager]: the game session lifecycle *)

Module SessionManager.
Section WithRuntime.
Context `{Runtime}.

Definition REFRESH_BUFFER : Z := 300.

Definition parseExpiry (expiresAt : string) : M Z :=
  match Date_parse expiresAt with
  | None => seconds <- epoch_seconds ;; ret (seconds + 3600)
  | Some parsed => ret (parsed / 1000)
  end.

Definition create (profileUuid accessToken : string) : M SessionTokens.t :=
  response <- fetch session_endpoint (SessionNew accessToken profileUuid) ;;
  data <- json response ;;
  if JS.truthy (SessionResponse.error data) then
    throw (CreateSessionFailed
             (JS.non_null (SessionResponse.error data))
             (JS.nullish (SessionResponse.error_description data)
                (JS.nullish (SessionResponse.message data) "")))
  else if negb (JS.truthy (SessionResponse.sessionToken data))
          || negb (JS.truthy (SessionResponse.identityToken data))
          || negb (JS.truthy (SessionResponse.expiresAt data)) then
    throw InvalidSessionResponse
  else
    let expiresAt := JS.non_null (SessionResponse.expiresAt data) in
    expiresEpoch <- parseExpiry expiresAt ;;
    createdAt <- epoch_seconds ;;
    let tokens :=
      SessionTokens.mk (JS.non_null (SessionResponse.sessionToken data))
                       (JS.non_null (SessionResponse.identityToken data))
                       expiresAt expiresEpoch createdAt in
    TokenStore.saveSessionTokens tokens ;;;
    ret tokens.

Definition refresh (sessionToken : string) : M (option SessionTokens.t) :=
  response <- fetch session_endpoint (SessionRefresh sessionToken) ;;
  if negb (ok (fst response)) then ret None
  else
    match snd response with
    | None => ret None            (* response.json () throws, caught *)
    | Some data =>
        if JS.truthy (SessionResponse.sessionToken data)
           && JS.truthy (SessionResponse.identityToken data)
           && JS.truthy (SessionResponse.expiresAt data) then
          let expiresAt := JS.non_null (SessionResponse.expiresAt data) in
          expiresEpoch <- parseExpiry expiresAt ;;
          createdAt <- epoch_seconds ;;
          let tokens :=
            SessionTokens.mk
              (JS.non_null (SessionResponse.sessionToken data))
              (JS.non_null (SessionResponse.identityToken data))
              expiresAt expiresEpoch createdAt in
          TokenStore.saveSessionTokens tokens ;;;
          ret (Some tokens)
        else ret None
    end.

Definition terminate (sessionToken : string) : M unit :=
  fetch session_endpoint (SessionDelete sessionToken) ;;;
  ret tt.

Definition isExpiring (expiresEpoch : Z) : M bool :=
  seconds <- epoch_seconds ;;
  ret (seconds >=? expiresEpoch - REFRESH_BUFFER).

End WithRuntime.
End SessionManager.

(** ** [ProfileManager]: game profile selection *)

Module ProfileManager.
Section WithConfig.
(** The constructor argument [autoSelect]. *)
Variable autoSelect : bool.

Definition build (uuid username : string) : M SelectedProfile.t :=
  seconds <- epoch_seconds ;;
  ret (SelectedProfile.mk uuid username seconds).

(** [this.build (profile.uuid, profile.username)] for [profile] read
    from an array: reading a property of [undefined] throws. *)
Definition build_from (profile : option Profile.t) : M SelectedProfile.t :=
  match profile with
  | None => throw TypeError
  | Some p => build (Profile.uuid p) (Profile.username p)
  end.

Definition select (profiles : ProfilesResponse.t)
  : M (option SelectedProfile.t) :=
  saved <- TokenStore.loadSelectedProfile ;;
  if match saved with
     | Some s =>
         existsb (fun p => String.eqb (Profile.uuid p) (SelectedProfile.uuid s))
                 (ProfilesResponse.profiles profiles)
     | None => false
     end
  then ret saved
  else if (List.length (ProfilesResponse.profiles profiles) =? 1)%nat then
    let profile := nth_error (ProfilesResponse.profiles profiles) 0 in
    selected <- build_from profile ;;
    TokenStore.saveSelectedProfile selected ;;;
    ret (Some selected)
  else if autoSelect then
    let profile := nth_error (ProfilesResponse.profiles profiles) 0 in
    selected <- build_from profile ;;
    TokenStore.saveSelectedProfile selected ;;;
    ret (Some selected)
  else ret None.

Definition resolve (profiles : ProfilesResponse.t) (selector : string)
  : M SelectedProfile.t :=
  if JS.test_digits selector then
    let index := JS.parseInt selector - 1 in
    if (index <? 0)
       || (index >=? Z.of_nat (List.length (ProfilesResponse.profiles profiles)))
    then throw (InvalidProfileNumber
                  (List.length (ProfilesResponse.profiles profiles)))
    else build_from (nth_error (ProfilesResponse.profiles profiles)
                               (Z.to_nat index))
  else
    match find (fun p => String.eqb (Profile.uuid p) selector)
               (ProfilesResponse.profiles profiles) with
    | None => throw (ProfileNotFound selector)
    | Some profile => build (Profile.uuid profile) (Profile.username profile)
    end.

Definition setSelection (profiles : ProfilesResponse.t) (selector : string)
  : M SelectedProfile.t :=
  selected <- resolve profiles selector ;;
  TokenStore.saveSelectedProfile selected ;;;
  ret selected.



End WithConfig.
End ProfileManager.

(** ** [AuthCli]: the [refresh] command *)

Module AuthCli.
Section WithRuntime.
Context `{Runtime}.
(** [config.autoSelectProfile], handed to the profile manager. *)
Variable autoSelect : bool.

Definition refresh : M unit :=
  oauth <- TokenStore.loadOAuthTokens ;;
  match oauth with
  | None => exit 1
  | Some oauth =>
      refreshedOAuth <-
        OAuthClient.refreshToken (OAuthTokens.refreshToken oauth) ;;
      session <- TokenStore.loadSessionTokens ;;
      match session with
      | Some session =>
          refreshedSession <-
            SessionManager.refresh (SessionTokens.sessionToken session) ;;
          match refreshedSession with
          | Some _ => ret tt
          | None =>
              profiles <- OAuthClient.getProfiles
                            (OAuthTokens.accessToken refreshedOAuth) ;;
              selected <- ProfileManager.select autoSelect profiles ;;
              match selected with
              | Some selected =>
                  SessionManager.create
                    (SelectedProfile.uuid selected)
                    (OAuthTokens.accessToken refreshedOAuth) ;;;
                  ret tt
              | None => ret tt
              end
          end
      | None => ret tt
      end
  end.

(** What [parseOptions] leaves in [options]. *)
Record Options := mkOptions { help : bool; json : bool }.

(** [parseOptions]: the loop runs from the last argument to the first
    and splices the flags out of [args]; the result is the options and
    what is left of [args]. *)
Fixpoint parseOptions (args : list string) : Options * list string :=
  match args with
  | [] => (mkOptions false false, [])
  | a :: later =>
      let '(options, kept) := parseOptions later in
      if String.eqb a "-h" || String.eqb a "--help" then
        (mkOptions true (json options), kept)
      else if String.eqb a "--json" then
        (mkOptions (help options) true, kept)
      else (options, a :: kept)
  end.

Definition session (json : bool) : M unit :=
  oauth <- TokenStore.loadOAuthTokens ;;
  match oauth with
  | None => exit 1
  | Some oauth =>
      profiles <- OAuthClient.getProfiles (OAuthTokens.accessToken oauth) ;;
      selected <- ProfileManager.select autoSelect profiles ;;
      match selected with
      | None => ret tt
      | Some selected =>
          SessionManager.create (SelectedProfile.uuid selected)
                                (OAuthTokens.accessToken oauth) ;;;
          ret tt
      end
  end.

Definition profile (args : list string) (json : bool) : M unit :=
  let sub := JS.nullish (nth_error args 0) "list" in
  if String.eqb sub "list" then
    cached <- TokenStore.loadProfiles ;;
    (match cached with
     | Some profiles => ret profiles
     | None =>
         oauth <- TokenStore.loadOAuthTokens ;;
         match oauth with
         | None => exit 1
         | Some oauth =>
             OAuthClient.getProfiles (OAuthTokens.accessToken oauth)
         end
     end) ;;;
    TokenStore.loadSelectedProfile ;;;
    ret tt
  else if String.eqb sub "select" then
    let selector := nth_error args 1 in
    if negb (JS.truthy selector) then exit 1
    else
      profiles <- TokenStore.loadProfiles ;;
      match profiles with
      | None => exit 1
      | Some profiles =>
          ProfileManager.setSelection profiles (JS.non_null selector) ;;;
          ret tt
      end
  else ret tt.

(** What [export] prints: with [--json] the three values of the object
    it serialises, otherwise the lines, the last one only when a profile
    is selected. *)
Inductive Exported :=
| ExportedJson (sessionToken identityToken profileUuid : string)
| ExportedShell (lines : list string).

Definition export (json : bool) : M Exported :=
  oauth <- TokenStore.loadOAuthTokens ;;
  match oauth with
  | None => exit 1
  | Some _ =>
      session <- TokenStore.loadSessionTokens ;;
      selected <- TokenStore.loadSelectedProfile ;;
      let sessionToken :=
        JS.nullish (option_map SessionTokens.sessionToken session) "" in
      let identityToken :=
        JS.nullish (option_map SessionTokens.identityToken session) "" in
      if json then
        ret (ExportedJson sessionToken identityToken
               (JS.nullish (option_map SelectedProfile.uuid selected) ""))
      else
        ret (ExportedShell
               (("export HYTALE_SERVER_SESSION_TOKEN=" ++ JS.quote
                   ++ sessionToken ++ JS.quote)
                :: ("export HYTALE_SERVER_IDENTITY_TOKEN=" ++ JS.quote
                      ++ identityToken ++ JS.quote)
                :: match selected with
                   | Some selected =>
                       ["export PROFILE_UUID=" ++ JS.quote
                          ++ SelectedProfile.uuid selected ++ JS.quote]
                   | None => []
                   end))
  end.

End WithRuntime.
End AuthCli.

(** ** [Config]: runtime configuration from environment variables *)

Module Config.

(** [process.env]: a variable is set to a string or not set. *)
Definition RuntimeEnv : Type := string -> option string.

Definition SERVER_DIR : string := "/server".

Definition parseBool (value : option string) (fallback : bool) : bool :=
  match value with
  | None => fallback
  | Some value => String.eqb (JS.toLowerCase value) "true"
  end.

Definition parseNumber (value : option string) (fallback : Z) : Z :=
  if negb (JS.truthy value) then fallback
  else JS.nullish (JS.parseInt10 (JS.non_null value)) fallback.

Record Paths := mkPaths {
  paths_SERVER_DIR : string;
  SERVER_JAR : string;
  ASSETS_ZIP : string;
  VERSION_FILE : string;
  VERSION_INFO_FILE : string;
  HYTALE_DOWNLOADER : string;
  SERVER_INPUT : string;
  SERVER_OUTPUT : string;
  TOKEN_DIR : string;
  OAUTH_TOKEN_FILE : string;
  SESSION_TOKEN_FILE : string;
  PROFILE_CACHE_FILE : string;
  SELECTED_PROFILE_FILE : string;
  DOWNLOADER_CREDENTIALS_FILE : string
}.

Record t := mk {
  paths : Paths;
  javaOpts : string;
  serverPort : Z;
  patchline : string;
  forceUpdate : bool;
  autoUpdate : bool;
  useAotCache : bool;
  disableSentry : bool;
  autoRefreshTokens : bool;
  autoSelectProfile : bool;
  extraArgs : string;
  cfApiKey : option string;
  cfMods : string
}.

(** The constructor. *)
Definition make (env : RuntimeEnv) : t :=
  let tokenDir :=
    JS.nullish (env "HYTALE_TOKEN_DIR") (SERVER_DIR ++ "/.hytale/tokens") in
  mk (mkPaths
        SERVER_DIR
        (SERVER_DIR ++ "/Server/HytaleServer.jar")
        (SERVER_DIR ++ "/Assets.zip")
        (SERVER_DIR ++ "/.downloader_version")
        (SERVER_DIR ++ "/.version_info")
        "/usr/local/bin/hytale-downloader"
        "/tmp/server_input"
        "/tmp/server_output.log"
        tokenDir
        (tokenDir ++ "/oauth_tokens.json")
        (tokenDir ++ "/session_tokens.json")
        (tokenDir ++ "/profiles.json")
        (tokenDir ++ "/selected_profile.json")
        (SERVER_DIR ++ "/.cache/.hytale-downloader-credentials.json"))
     (JS.nullish (env "JAVA_OPTS") "-Xms4G -Xmx8G")
     (parseNumber (env "SERVER_PORT") 5520)
     (JS.nullish (env "PATCHLINE") "release")
     (parseBool (env "FORCE_UPDATE") false)
     (parseBool (env "AUTO_UPDATE") false)
     (parseBool (env "USE_AOT_CACHE") true)
     (parseBool (env "DISABLE_SENTRY") false)
     (parseBool (env "AUTO_REFRESH_TOKENS") true)
     (parseBool (env "AUTOSELECT_GAME_PROFILE") true)
     (JS.nullish (env "EXTRA_ARGS") "")
     (env "CF_API_KEY")
     (JS.nullish (env "CF_MODS") "").

End Config.

(** ** Concrete data used to exercise the properties *)

Module Scenario.

Definition new_year : string := "2026-01-01T00:00:00.000Z".

(** A runtime whose [Date.parse] knows one date and rejects the rest. *)
Definition runtime : Runtime :=
  {| Date_parse := fun s =>
       if String.eqb s new_year then Some 1767225600000 else None |}.

Definition empty_store : Store := mkStore None None None None [].

(** A server that never answers. *)
Definition silent : Server :=
  mkServer (fun _ => Unreachable) (fun _ => Unreachable)
           (fun _ => Unreachable).

Definition world (clock : Z) (s : Store) (srv : Server) : World :=
  mkWorld clock s srv [].

Definition oauth : OAuthTokens.t := OAuthTokens.mk "at-1" "rt-1" 5000 1400.


Definition session : SessionTokens.t :=
  SessionTokens.mk "st-1" "it-1" new_year 1767225600 1400.

(** A server that gives the same answers whatever it is asked. *)
Definition constant (tok : Reply TokenResponse.t)
    (prof : Reply ProfilesResponse.t) (sess : Reply SessionResponse.t)
  : Server :=
  mkServer (fun _ => tok) (fun _ => prof) (fun _ => sess).

Definition session_reply (expiresAt : string) (error : option string)
  : SessionResponse.t :=
  SessionResponse.mk (Some "st-2") (Some "it-2") (Some expiresAt)
                     error None None.

Definition token_reply (refresh_token : option string) : TokenResponse.t :=
  TokenResponse.mk (Some "at-2") refresh_token (Some 7200)
                   (Some "bearer") None None None.

(** Session endpoint answering with status [status] and body [body]. *)
Definition session_server (status : Z) (body : option SessionResponse.t)
  : Server :=
  constant Unreachable Unreachable (Http status body).

(** Token endpoint answering 200 with [data]. *)
Definition token_server (data : TokenResponse.t) : Server :=
  constant (Http 200 (Some data)) Unreachable Unreachable.

Definition steve : Profile.t := Profile.mk "abc123" "Steve".
Definition alex : Profile.t := Profile.mk "def456" "Alex".

Definition both : ProfilesResponse.t :=
  ProfilesResponse.mk "owner-1" [steve; alex].

(** An authorization side that is reachable and answers every request:
    it renews the OAuth credential, lists two profiles, rejects the
    refresh of a session with 401 and accepts the creation of one. *)
Definition stale_session : Server :=
  mkServer
    (fun _ => Http 200 (Some (token_reply None)))
    (fun _ => Http 200 (Some both))
    (fun history =>
       match history with
       | SessionNew _ _ :: _ => Http 200 (Some (session_reply new_year None))
       | _ => Http 401 None
       end).

Definition grant (expiresIn interval : Z) : DeviceCodeState.t :=
  DeviceCodeState.mk "dc-1" expiresIn interval.

Definition pending : TokenResponse.t :=
  TokenResponse.mk None None None None None
                   (Some "authorization_pending") None.

(** The user approves between the first poll and the second. *)
Definition approves_late : Server :=
  mkServer
    (fun history =>
       match history with
       | [_] => Http 400 (Some pending)
       | _ => Http 200 (Some (token_reply (Some "rt-2")))
       end)
    (fun _ => Unreachable) (fun _ => Unreachable).

(** The user never approves. *)
Definition never_approves : Server :=
  token_server pending.

(** The user approves after three polls; the token response states no
    lifetime. *)
Definition approves_fourth_poll : Server :=
  mkServer
    (fun history =>
       match history with
       | [_; _; _; _] =>
           Http 200 (Some (TokenResponse.mk (Some "at-2") (Some "rt-2") None
                                            None None None None))
       | _ => Http 400 (Some pending)
       end)
    (fun _ => Unreachable) (fun _ => Unreachable).

Definition stored : Store :=
  mkStore (Some (Holds (OAuthFile.mk (Some "at-1") (Some "rt-1")
                                     (Some 5000) (Some 1400))))
          (Some (Holds session)) None None [].

End Scenario.

(** ** Notions the properties are stated with *)

(** A session response carries all the required fields: session token,
    identity token and expiry, each set and not the empty string (the
    test the code makes, [data.sessionToken && ...]). *)
Definition complete (data : SessionResponse.t) : bool :=
  JS.truthy (SessionResponse.sessionToken data)
  && JS.truthy (SessionResponse.identityToken data)
  && JS.truthy (SessionResponse.expiresAt data).

(** The credential a complete session response describes, up to the two
    instants the session manager derives. *)
Definition describes (data : SessionResponse.t) (t : SessionTokens.t) : Prop :=
  SessionResponse.sessionToken data = Some (SessionTokens.sessionToken t)
  /\ SessionResponse.identityToken data = Some (SessionTokens.identityToken t)
  /\ SessionResponse.expiresAt data = Some (SessionTokens.expiresAt t).

(** The document [saveOAuthTokens] writes for a credential. *)
Definition oauth_document (t : OAuthTokens.t) : OAuthFile.t :=
  OAuthFile.mk (Some (OAuthTokens.accessToken t))
               (Some (OAuthTokens.refreshToken t))
               (Some (OAuthTokens.expiresAt t))
               (Some (OAuthTokens.createdAt t)).

(** A saved selection can be reused: there is one, and its identifier
    appears in the profile set. *)
Definition reusable (saved : option SelectedProfile.t)
    (profiles : ProfilesResponse.t) : bool :=
  match saved with
  | Some s =>
      existsb (fun p => String.eqb (Profile.uuid p) (SelectedProfile.uuid s))
              (ProfilesResponse.profiles profiles)
  | None => false
  end.

(** The selection [build] makes of a profile at the current time. *)
Definition selection_of (p : Profile.t) (w : World) : SelectedProfile.t :=
  SelectedProfile.mk (Profile.uuid p) (Profile.username p) (now w).

(** The world after [saveSelectedProfile]. *)
Definition with_selection (selected : SelectedProfile.t) (w : World) : World :=
  mkWorld (clock w) (TokenStore.write_selected selected (store w))
          (remote w) (sent w).



(** A token endpoint that answers every poll with
    [authorization_pending]. *)
Definition keeps_pending (srv : Server) : Prop :=
  forall history, exists status data,
    token_endpoint srv history = Http status (Some data)
    /\ TokenResponse.error data = Some "authorization_pending".

(** The flags [parseOptions] knows. *)
Definition is_help_flag (a : string) : bool :=
  String.eqb a "-h" || String.eqb a "--help".

Definition is_json_flag (a : string) : bool := String.eqb a "--json".

(** What a command makes of the outcome of a call whose value it drops. *)
Definition discard {A : Type} (out : Outcome A) : Outcome unit :=
  match out with
  | Return _ => Return tt
  | Throw e => Throw e
  | Exit c => Exit c
  end.

(** A printable ASCII character other than the space. *)
Definition printable (c : ascii) : bool :=
  let n := N_of_ascii c in ((33 <=? n) && (n <=? 126))%N.

(** A value in which [parseInt] finds no numeral at its start: it is
    unset, empty, or begins with a printable character that is neither a
    digit nor a sign. *)
Definition no_numeral (value : option string) : bool :=
  match value with
  | None => true
  | Some EmptyString => true
  | Some (String c _) =>
      printable c && negb (JS.is_digit c)
      && negb (Ascii.eqb c "+") && negb (Ascii.eqb c "-")
  end.

(** The word [true] in any mix of capitals and small letters. *)
Definition spells_true (s : string) : Prop :=
  exists c1 c2 c3 c4 : ascii,
    s = String c1 (String c2 (String c3 (String c4 EmptyString)))
    /\ (c1 = "t" \/ c1 = "T")%char
    /\ (c2 = "r" \/ c2 = "R")%char
    /\ (c3 = "u" \/ c3 = "U")%char
    /\ (c4 = "e" \/ c4 = "E")%char.

(** What follows a numeral: nothing, or text that does not go on with a
    digit. *)
Definition ends_numeral (rest : string) : bool :=
  match rest with
  | EmptyString => true
  | String c _ => negb (JS.is_digit c)
  end.

(** * Properties *)

(** ** Running computations *)

Ltac run :=
  cbv beta delta
    [bind ret throw exit epoch_seconds sleep modify_store get_store fetch json
     TokenStore.saveOAuthTokens TokenStore.loadOAuthTokens
     TokenStore.saveProfiles TokenStore.loadProfiles
     TokenStore.saveSelectedProfile TokenStore.loadSelectedProfile
     TokenStore.saveSessionTokens TokenStore.loadSessionTokens] in *;
  cbn -[JS.truthy Z.div Z.mul Z.add Z.sub Z.max] in *.

Lemma truthy_Some (s : string) : s <> "" -> JS.truthy (Some s) = true.
Proof.
  intros Hs. unfold JS.truthy.
  apply (proj2 (String.eqb_neq s "")) in Hs. now rewrite Hs.
Qed.

Lemma truthy_inv (v : option string) :
  JS.truthy v = true -> exists s, v = Some s /\ s <> "" /\ JS.non_null v = s.
Proof.
  destruct v as [s|]; cbn; [|discriminate].
  intros Hs. exists s. repeat split.
  apply String.eqb_neq. now destruct (String.eqb s "").
Qed.

(** ** The refresh-anticipation rule *)

(** C1: for every expiry instant [e] and at every current time,
    [needsRefresh e] of the OAuth client and [isExpiring e] of the session
    manager return the same boolean, which is [true] if and only if
    [now >= e - 300]; neither changes the state. *)
Theorem refresh_anticipation_rule (e : Z) (w : World) :
  exists b : bool,
    OAuthClient.needsRefresh e w = (Return b, w)
    /\ SessionManager.isExpiring e w = (Return b, w)
    /\ (b = true <-> now w >= e - 300).
Proof.
  exists (now w >=? e - 300).
  repeat split.
  - intros Hb. apply Z.geb_le in Hb. lia.
  - intros Hge. apply Z.geb_le. lia.
Qed.

(** ** The credential store *)




(** ** Session refresh *)

Section SessionRefresh.
Context `{Runtime}.

(** The three ways [refresh] has of giving up, and the one of going
    through, as one case analysis on the reply. *)
Lemma refresh_cases (sessionToken : string) (w : World)
    (status : Z) (body : option SessionResponse.t) :
  session_endpoint (remote w) (SessionRefresh sessionToken :: sent w)
  = Http status body ->
  let w1 := mkWorld (clock w) (store w) (remote w)
                    (SessionRefresh sessionToken :: sent w) in
  (ok status = true
   /\ (exists data t,
          body = Some data /\ complete data = true /\ describes data t
          /\ SessionManager.refresh sessionToken w
             = (Return (Some t),
                mkWorld (clock w) (TokenStore.write_session t (store w))
                        (remote w) (sent w1))))
  \/ ((ok status = false
       \/ body = None
       \/ (exists data, body = Some data /\ complete data = false))
      /\ SessionManager.refresh sessionToken w = (Return None, w1)).
Proof.
  intros Hreply w1. subst w1.
  unfold SessionManager.refresh. run. rewrite Hreply. run.
  destruct (ok status) eqn:Hok; cbn [negb];
    [|right; split; [left|]; reflexivity].
  destruct body as [data|]; [|right; split; [right; left|]; reflexivity].
  change (JS.truthy (SessionResponse.sessionToken data)
          && JS.truthy (SessionResponse.identityToken data)
          && JS.truthy (SessionResponse.expiresAt data))
    with (complete data).
  destruct (complete data) eqn:Hcomplete;
    [|right; split; [right; right; exists data; auto|reflexivity]].
  left. split; [reflexivity|].
  pose proof Hcomplete as Hall. unfold complete in Hall.
  apply andb_true_iff in Hall. destruct Hall as [Hall He].
  apply andb_true_iff in Hall. destruct Hall as [Hs Hi].
  destruct (truthy_inv _ Hs) as (s & Hs1 & _ & Hs'),
           (truthy_inv _ Hi) as (i & Hi1 & _ & Hi'),
           (truthy_inv _ He) as (e & He1 & _ & He').
  rewrite Hs', Hi', He'.
  exists data,
    (SessionTokens.mk s i e
       (match Date_parse e with
        | Some parsed => parsed / 1000
        | None => now w + 3600
        end) (now w)).
  repeat split; try assumption.
  unfold SessionManager.parseExpiry.
  destruct (Date_parse e) as [parsed|]; reflexivity.
Qed.


(** A refresh that returns [null] has sent its request and done nothing
    else. *)
Lemma session_refresh_null_stays (sessionToken : string) (w w' : World) :
  SessionManager.refresh sessionToken w = (Return None, w') ->
  store w' = store w.
Proof.
  intros Hrun.
  destruct (session_endpoint (remote w)
              (SessionRefresh sessionToken :: sent w))
    as [|status body] eqn:Hreply.
  - unfold SessionManager.refresh in Hrun. run.
    rewrite Hreply in Hrun. discriminate.
  - destruct (refresh_cases sessionToken w status body Hreply)
      as [(_ & data & t & _ & _ & _ & Hrun')|(_ & Hrun')];
      rewrite Hrun' in Hrun; [discriminate|].
    injection Hrun as <-. reflexivity.
Qed.

(** C10: on every path where [refresh] returns [null] the token store
    is left as it was: no file is written and the persisted session
    credential is the one from before the call. *)
Theorem session_refresh_null_writes_nothing (sessionToken : string)
    (w w' : World) :
  SessionManager.refresh sessionToken w = (Return None, w') ->
  store w' = store w
  /\ written (store w') = written (store w)
  /\ fst (TokenStore.loadSessionTokens w')
     = fst (TokenStore.loadSessionTokens w).
Proof.
  intros Hrun. apply session_refresh_null_stays in Hrun.
  split; [assumption|]. run. now rewrite Hrun.
Qed.

End SessionRefresh.


Lemma session_refresh_null_writes_nothing_witness :
  let w := Scenario.world 1500000 Scenario.stored
             (Scenario.session_server 401 None) in
  let w' := mkWorld (clock w) (store w) (remote w) [SessionRefresh "st-1"] in
  @SessionManager.refresh Scenario.runtime "st-1" w = (Return None, w')
  /\ store w' = store w
  /\ written (store w') = written (store w)
  /\ fst (TokenStore.loadSessionTokens w')
     = fst (TokenStore.loadSessionTokens w).
Proof.
  intros w w'. split; [reflexivity|].
  apply (@session_refresh_null_writes_nothing Scenario.runtime "st-1" w w').
  reflexivity.
Defined.

(** ** OAuth refresh *)

(** C7: when the token endpoint answers [refreshToken prior] with a
    response that carries no error and contains an access token, the call
    returns a credential and the store holds it; if the response omits a
    refresh token the credential keeps [prior], and if it contains one,
    that one replaces [prior]. *)
Theorem refresh_token_rotation (prior : string) (w : World)
    (status : Z) (data : TokenResponse.t) :
  token_endpoint (remote w) (RefreshToken prior :: sent w)
  = Http status (Some data) ->
  JS.truthy (TokenResponse.error data) = false ->
  JS.truthy (TokenResponse.access_token data) = true ->
  exists (t : OAuthTokens.t) (w' : World),
    OAuthClient.refreshToken prior w = (Return t, w')
    /\ oauth_tokens (store w') = Some (Holds (oauth_document t))
    /\ Some (OAuthTokens.accessToken t) = TokenResponse.access_token data
    /\ (TokenResponse.refresh_token data = None ->
        OAuthTokens.refreshToken t = prior)
    /\ (forall r, TokenResponse.refresh_token data = Some r ->
        OAuthTokens.refreshToken t = r).
Proof.
  intros Hreply Herror Haccess.
  unfold OAuthClient.refreshToken, OAuthClient.createTokens. run.
  rewrite Hreply. run. rewrite Herror, Haccess. run.
  destruct (truthy_inv _ Haccess) as (a & Ha & _ & Ha').
  eexists _, _. split; [reflexivity|].
  cbn. rewrite Ha'. repeat split.
  - now symmetry.
  - now intros ->.
  - now intros r ->.
Qed.

Lemma refresh_token_rotation_witness :
  let w := Scenario.world 1500000 Scenario.stored
             (Scenario.token_server (Scenario.token_reply None)) in
  (token_endpoint (remote w) (RefreshToken "rt-1" :: sent w)
   = Http 200 (Some (Scenario.token_reply None))
   /\ JS.truthy (TokenResponse.error (Scenario.token_reply None)) = false
   /\ JS.truthy (TokenResponse.access_token (Scenario.token_reply None)) = true)
  /\ exists (t : OAuthTokens.t) (w' : World),
      OAuthClient.refreshToken "rt-1" w = (Return t, w')
      /\ oauth_tokens (store w') = Some (Holds (oauth_document t))
      /\ Some (OAuthTokens.accessToken t) = Some "at-2"
      /\ (@None string = None -> OAuthTokens.refreshToken t = "rt-1")
      /\ (forall r, None = Some r -> OAuthTokens.refreshToken t = r).
Proof.
  intros w. split; [repeat split|].
  apply (refresh_token_rotation "rt-1" w 200 (Scenario.token_reply None));
    reflexivity.
Defined.

(** ** Session creation *)

Section SessionCreate.
Context `{Runtime}.

(** C8 (amended): when the session endpoint answers [create] with a
    response that carries no error and contains session token, identity
    token and expiry, [create] returns a credential, which the store
    then holds, whose expiry epoch is the parsed expiry string in whole
    seconds, or [now + 3600] when the string cannot be parsed. *)
Theorem create_derives_expiry (profileUuid accessToken : string)
    (w : World) (status : Z) (data : SessionResponse.t) :
  session_endpoint (remote w) (SessionNew accessToken profileUuid :: sent w)
  = Http status (Some data) ->
  JS.truthy (SessionResponse.error data) = false ->
  complete data = true ->
  exists (t : SessionTokens.t) (w' : World),
    SessionManager.create profileUuid accessToken w = (Return t, w')
    /\ describes data t
    /\ SessionTokens.expiresEpoch t
       = match Date_parse (SessionTokens.expiresAt t) with
         | Some parsed => parsed / 1000
         | None => now w + 3600
         end
    /\ session_tokens (store w') = Some (Holds t).
Proof.
  intros Hreply Herror Hcomplete.
  unfold SessionManager.create. run. rewrite Hreply. run. rewrite Herror.
  unfold complete in Hcomplete.
  apply andb_true_iff in Hcomplete. destruct Hcomplete as [Hall He].
  apply andb_true_iff in Hall. destruct Hall as [Hs Hi].
  rewrite Hs, Hi, He. cbn [negb orb].
  destruct (truthy_inv _ Hs) as (s & Hs1 & _ & Hs'),
           (truthy_inv _ Hi) as (i & Hi1 & _ & Hi'),
           (truthy_inv _ He) as (e & He1 & _ & He').
  rewrite Hs', Hi', He'.
  unfold SessionManager.parseExpiry, describes.
  destruct (Date_parse e) as [parsed|] eqn:Hparse; run;
    eexists _, _; (split; [reflexivity|]); cbn; rewrite Hparse; auto.
Qed.

End SessionCreate.

(** C8, as stated for every response containing the required fields,
    fails: a response that also carries an error makes [create] throw,
    whatever its expiry string. *)
Lemma create_throws_on_error_with_tokens :
  let data := Scenario.session_reply Scenario.new_year (Some "forbidden") in
  let w := Scenario.world 1500000 Scenario.stored
             (Scenario.session_server 200 (Some data)) in
  complete data = true
  /\ session_endpoint (remote w) (SessionNew "at-1" "uuid-1" :: sent w)
     = Http 200 (Some data)
  /\ fst (@SessionManager.create Scenario.runtime "uuid-1" "at-1" w)
     = Throw (CreateSessionFailed "forbidden" "")
  /\ store (snd (@SessionManager.create Scenario.runtime "uuid-1" "at-1" w))
     = store w.
Proof. repeat split. Qed.

Lemma create_derives_expiry_witness :
  let data := Scenario.session_reply "soon" None in
  let w := Scenario.world 1500000 Scenario.stored
             (Scenario.session_server 200 (Some data)) in
  (session_endpoint (remote w) (SessionNew "at-1" "uuid-1" :: sent w)
   = Http 200 (Some data)
   /\ JS.truthy (SessionResponse.error data) = false
   /\ complete data = true)
  /\ exists (t : SessionTokens.t) (w' : World),
      @SessionManager.create Scenario.runtime "uuid-1" "at-1" w = (Return t, w')
      /\ describes data t
      /\ SessionTokens.expiresEpoch t
         = match @Date_parse Scenario.runtime (SessionTokens.expiresAt t) with
           | Some parsed => parsed / 1000
           | None => now w + 3600
           end
      /\ session_tokens (store w') = Some (Holds t).
Proof.
  intros data w. split; [repeat split|].
  apply (@create_derives_expiry Scenario.runtime "uuid-1" "at-1" w 200 data);
    reflexivity.
Defined.

(** ** Decimal numerals *)

Lemma parse_digits_uint (d : Decimal.uint) (acc : Z) :
  JS.parse_digits acc (NilEmpty.string_of_uint d)
  = Z.of_N (DecimalPos.Unsigned.of_lu (Decimal.rev d))
    + acc * 10 ^ Z.of_N (DecimalPos.Unsigned.usize d).
Proof.
  revert acc.
  induction d as [|d IH|d IH|d IH|d IH|d IH|d IH|d IH|d IH|d IH|d IH];
    intros acc;
    [ cbn; lia | .. ];
    cbn [NilEmpty.string_of_uint JS.parse_digits DecimalPos.Unsigned.usize];
    rewrite IH; unfold Decimal.rev; cbn [Decimal.revapp];
    rewrite (DecimalPos.Unsigned.of_lu_revapp d (_ Decimal.Nil));
    unfold Decimal.rev; cbn [DecimalPos.Unsigned.of_lu];
    repeat (rewrite N2Z.inj_add || rewrite N2Z.inj_mul
            || rewrite N2Z.inj_pow || rewrite N2Z.inj_succ);
    rewrite Z.pow_succ_r by apply N2Z.is_nonneg;
    match goal with
    | |- context [Z.of_N (N_of_ascii ?c) - 48] =>
        let v := eval vm_compute in (Z.of_N (N_of_ascii c) - 48) in
        change (Z.of_N (N_of_ascii c) - 48) with v
    end;
    cbn [Z.of_N];
    ring.
Qed.

Lemma all_digits_uint (d : Decimal.uint) :
  JS.all_digits (NilEmpty.string_of_uint d) = true.
Proof. induction d; cbn; trivial. Qed.

Lemma to_uint_not_nil (n : N) : N.to_uint n <> Decimal.Nil.
Proof.
  destruct n as [|p]; cbn; [discriminate|].
  apply DecimalPos.Unsigned.to_uint_nonnil.
Qed.

Lemma decimal_digits (n : N) :
  JS.test_digits (JS.decimal n) = true /\ JS.parseInt (JS.decimal n) = Z.of_N n.
Proof.
  unfold JS.decimal, JS.parseInt.
  pose proof (to_uint_not_nil n) as Hnil.
  pose proof (DecimalN.Unsigned.of_to n) as Hof.
  destruct (N.to_uint n) as [|d|d|d|d|d|d|d|d|d|d] eqn:Hd;
    [congruence|..];
    unfold NilZero.string_of_uint;
    (split;
     [ apply (all_digits_uint (_ d))
     | rewrite parse_digits_uint, <- DecimalPos.Unsigned.of_uint_alt;
       unfold N.of_uint in Hof; rewrite Hof; lia ]).
Qed.

(** ** Explicit selection *)

Lemma build_returns (uuid username : string) (w : World) :
  ProfileManager.build uuid username w
  = (Return (SelectedProfile.mk uuid username (now w)), w).
Proof. reflexivity. Qed.

Lemma find_none_iff (selector : string) (l : list Profile.t) :
  find (fun p => String.eqb (Profile.uuid p) selector) l = None
  <-> (forall p, In p l -> Profile.uuid p <> selector).
Proof.
  induction l as [|q l IH]; cbn.
  - split; [intros _ p []|reflexivity].
  - destruct (String.eqb (Profile.uuid q) selector) eqn:Hq.
    + apply String.eqb_eq in Hq.
      split; [discriminate|]. intros Hall. now destruct (Hall q (or_introl eq_refl)).
    + apply String.eqb_neq in Hq. rewrite IH.
      split.
      * intros Hall p [<-|Hin]; auto.
      * intros Hall p Hin. apply Hall. now right.
Qed.

(** [setSelection] returns only what it has just written. *)
Lemma setSelection_persists (profiles : ProfilesResponse.t) (selector : string)
    (w w' : World) (selected : SelectedProfile.t) :
  ProfileManager.setSelection profiles selector w = (Return selected, w') ->
  store w' = TokenStore.write_selected selected (store w).
Proof.
  unfold ProfileManager.setSelection. run.
  destruct (ProfileManager.resolve profiles selector w)
    as [[sel|e|c] w1] eqn:Hresolve; try discriminate.
  intros Hrun. injection Hrun as <- <-. cbn.
  enough (w1 = w) as -> by reflexivity.
  revert Hresolve. unfold ProfileManager.resolve, ProfileManager.build_from.
  destruct (JS.test_digits selector).
  - destruct (_ || _); [discriminate|].
    destruct (nth_error _ _); [|discriminate].
    rewrite build_returns. congruence.
  - destruct (find _ _); [|discriminate].
    rewrite build_returns. congruence.
Qed.

(** C9: with [count] profiles in the set, [setSelection] fails with the
    invalid-index error on every numeric ordinal outside [1, count], in
    particular on the numerals of 0 and of [count + 1]; it fails with the
    not-found error on every selector that is not a numeral and is no
    profile's UUID; neither failure writes anything; and whenever it
    returns a profile, the selected-profile file holds that profile. *)
Theorem setSelection_outcomes (profiles : ProfilesResponse.t) (w : World) :
  let count := List.length (ProfilesResponse.profiles profiles) in
  (forall selector,
      JS.test_digits selector = true ->
      JS.parseInt selector < 1 \/ Z.of_nat count < JS.parseInt selector ->
      ProfileManager.setSelection profiles selector w
      = (Throw (InvalidProfileNumber count), w)
      /\ kind (InvalidProfileNumber count) = InvalidIndex)
  /\ ProfileManager.setSelection profiles "0" w
     = (Throw (InvalidProfileNumber count), w)
  /\ ProfileManager.setSelection profiles (JS.decimal (N.of_nat count + 1)) w
     = (Throw (InvalidProfileNumber count), w)
  /\ (forall selector,
      JS.test_digits selector = false ->
      (forall p, In p (ProfilesResponse.profiles profiles) ->
                 Profile.uuid p <> selector) ->
      ProfileManager.setSelection profiles selector w
      = (Throw (ProfileNotFound selector), w)
      /\ kind (ProfileNotFound selector) = NotFound)
  /\ (forall selector selected w',
      ProfileManager.setSelection profiles selector w = (Return selected, w') ->
      selected_profile (store w') = Some (Holds selected)
      /\ written (store w') = SELECTED_PROFILE_FILE :: written (store w)
      /\ TokenStore.loadSelectedProfile w' = (Return (Some selected), w')).
Proof.
  intros count.
  assert (Hordinal : forall selector,
             JS.test_digits selector = true ->
             JS.parseInt selector < 1 \/ Z.of_nat count < JS.parseInt selector ->
             ProfileManager.setSelection profiles selector w
             = (Throw (InvalidProfileNumber count), w)).
  { intros selector Hdigits Hrange.
    unfold ProfileManager.setSelection, ProfileManager.resolve. run.
    rewrite Hdigits. fold count.
    replace ((JS.parseInt selector - 1 <? 0)
             || (JS.parseInt selector - 1 >=? Z.of_nat count)) with true;
      [reflexivity|].
    symmetry. apply orb_true_iff.
    destruct Hrange; [left; apply Z.ltb_lt|right; apply Z.geb_le]; lia. }
  split; [|split; [|split; [|split]]].
  - intros selector Hdigits Hrange. split; [auto|reflexivity].
  - apply Hordinal; [reflexivity|left; cbn; lia].
  - destruct (decimal_digits (N.of_nat count + 1)) as [Hdigits Hvalue].
    apply Hordinal; [assumption|right]. rewrite Hvalue. lia.
  - intros selector Hdigits Hunknown. split; [|reflexivity].
    unfold ProfileManager.setSelection, ProfileManager.resolve. run.
    rewrite Hdigits.
    apply find_none_iff in Hunknown. now rewrite Hunknown.
  - intros selector selected w' Hrun.
    apply setSelection_persists in Hrun.
    run. rewrite Hrun. repeat split.
Qed.

Lemma setSelection_outcomes_witness :
  let w := Scenario.world 1500000 Scenario.empty_store Scenario.silent in
  (JS.test_digits "3" = true
   /\ (JS.parseInt "3" < 1 \/ Z.of_nat 2 < JS.parseInt "3")
   /\ ProfileManager.setSelection Scenario.both "3" w
      = (Throw (InvalidProfileNumber 2), w))
  /\ (JS.test_digits "0a1b2c" = false
      /\ ProfileManager.setSelection Scenario.both "0a1b2c" w
         = (Throw (ProfileNotFound "0a1b2c"), w))
  /\ (exists w',
         ProfileManager.setSelection Scenario.both "2" w
         = (Return (SelectedProfile.mk "def456" "Alex" 1500), w')
         /\ selected_profile (store w')
            = Some (Holds (SelectedProfile.mk "def456" "Alex" 1500))).
Proof.
  intros w.
  destruct (setSelection_outcomes Scenario.both w)
    as (Hordinal & _ & _ & Hunknown & Hpersist).
  split; [|split].
  - split; [reflexivity|]. split; [right; cbn; lia|].
    apply (proj1 (Hordinal "3" eq_refl (or_intror eq_refl))).
  - split; [reflexivity|].
    refine (proj1 (Hunknown "0a1b2c" eq_refl _)).
    intros p [<-|[<-|[]]]; discriminate.
  - eexists. split; [reflexivity|].
    exact (proj1 (Hpersist "2" _ _ eq_refl)).
Defined.

(** ** Profile selection *)

Lemma loadSelectedProfile_returns (w : World) :
  TokenStore.loadSelectedProfile w
  = (Return (TokenStore.read (selected_profile (store w))), w).
Proof. reflexivity. Qed.

(** The four cases of [select], in the order the code tries them, for a
    profile set that is not empty. *)
Lemma select_resolution (autoSelect : bool) (profiles : ProfilesResponse.t)
    (w : World) (first : Profile.t) (others : list Profile.t) :
  ProfilesResponse.profiles profiles = first :: others ->
  let saved := TokenStore.read (selected_profile (store w)) in
  ProfileManager.select autoSelect profiles w
  = if reusable saved profiles then (Return saved, w)
    else match others with
         | [] => (Return (Some (selection_of first w)),
                  with_selection (selection_of first w) w)
         | _ :: _ =>
             if autoSelect
             then (Return (Some (selection_of first w)),
                   with_selection (selection_of first w) w)
             else (Return None, w)
         end.
Proof.
  intros Hprofiles saved. subst saved.
  unfold ProfileManager.select, reusable.
  unfold bind at 1. rewrite loadSelectedProfile_returns.
  rewrite Hprofiles.
  destruct (match TokenStore.read (selected_profile (store w)) with
            | Some s => existsb _ (first :: others)
            | None => false
            end); [reflexivity|].
  destruct others as [|second others]; [reflexivity|].
  destruct autoSelect; reflexivity.
Qed.

(** On an empty profile set nothing can be reused; what is left is the
    reading of the first element. *)
Lemma select_nobody (autoSelect : bool) (profiles : ProfilesResponse.t)
    (w : World) :
  ProfilesResponse.profiles profiles = [] ->
  ProfileManager.select autoSelect profiles w
  = if autoSelect then (Throw TypeError, w) else (Return None, w).
Proof.
  intros Hprofiles.
  unfold ProfileManager.select.
  unfold bind at 1. rewrite loadSelectedProfile_returns.
  rewrite Hprofiles.
  destruct (TokenStore.read (selected_profile (store w))); cbn [existsb];
    destruct autoSelect; reflexivity.
Qed.

(** C3 (the code departs from it): on an empty profile set, with
    auto-selection enabled, [select] does not return [null]: it throws a
    [TypeError], whatever the rest of the world is. *)
Theorem select_empty_set_throws (owner : string) (w : World) :
  ProfileManager.select true (ProfilesResponse.mk owner []) w
  = (Throw TypeError, w)
  /\ ProfileManager.select false (ProfilesResponse.mk owner []) w
     = (Return None, w).
Proof. split; now rewrite select_nobody. Qed.

(** What an invocation of [select] that returns leaves behind: no
    request, and a token store that differs at most in the selected
    profile, written exactly when the selection was not a saved one. *)
Lemma select_returns (autoSelect : bool) (profiles : ProfilesResponse.t)
    (w w' : World) (selected : option SelectedProfile.t) :
  ProfileManager.select autoSelect profiles w = (Return selected, w') ->
  sent w' = sent w /\ clock w' = clock w /\ remote w' = remote w
  /\ session_tokens (store w') = session_tokens (store w)
  /\ oauth_tokens (store w') = oauth_tokens (store w)
  /\ (selected = None -> w' = w).
Proof.
  destruct (ProfilesResponse.profiles profiles) as [|first others] eqn:Hp.
  - rewrite (select_nobody autoSelect profiles w Hp).
    destruct autoSelect; [discriminate|].
    intros Hrun. injection Hrun as <- <-. repeat split.
  - rewrite (select_resolution autoSelect profiles w first others Hp).
    destruct (reusable _ _).
    + intros Hrun. injection Hrun as <- <-. repeat split.
    + destruct others as [|second others]; [|destruct autoSelect];
        intros Hrun; injection Hrun as <- <-; repeat split; discriminate.
Qed.

(** ** The refresh command *)

Lemma getProfiles_returns (accessToken : string) (w w' : World)
    (profiles : ProfilesResponse.t) :
  OAuthClient.getProfiles accessToken w = (Return profiles, w') ->
  sent w' = GetProfiles accessToken :: sent w
  /\ session_tokens (store w') = session_tokens (store w)
  /\ profiles_cache (store w') = Some (Holds profiles).
Proof.
  unfold OAuthClient.getProfiles. run.
  destruct (profiles_endpoint (remote w) (GetProfiles accessToken :: sent w))
    as [|status [body|]]; run; try discriminate;
    destruct (ok status); run; try discriminate.
  intros Hrun. injection Hrun as <- <-. repeat split.
Qed.

Section RefreshCommand.
Context `{Runtime}.

Lemma create_returns (profileUuid accessToken : string) (w w' : World)
    (t : SessionTokens.t) :
  SessionManager.create profileUuid accessToken w = (Return t, w') ->
  sent w' = SessionNew accessToken profileUuid :: sent w
  /\ session_tokens (store w') = Some (Holds t).
Proof.
  unfold SessionManager.create, SessionManager.parseExpiry. run.
  destruct (session_endpoint (remote w)
              (SessionNew accessToken profileUuid :: sent w))
    as [|status [data|]]; run; try discriminate.
  destruct (JS.truthy (SessionResponse.error data)); [discriminate|].
  destruct (_ || _); [discriminate|].
  destruct (Date_parse _); run;
    intros Hrun; injection Hrun as <- <-; repeat split.
Qed.

(** C4 (amended): in the refresh command, when the refresh of the stored
    session returns [null], the command fetches the profiles with the
    access token of the OAuth credential it has just renewed and resolves
    the selection again.  If the selection resolves to a profile, it asks
    for a new session for that profile with the same access token, and
    once that creation returns, the command ends normally with the new
    credential in the store.  If the selection is deferred ([null]), the
    command ends normally without asking for a session, the stored
    session credential being the one from before. *)
Theorem refresh_falls_back_to_creation (autoSelect : bool)
    (w w1 w2 w3 w4 : World) (oauth refreshed : OAuthTokens.t)
    (session : SessionTokens.t) (profiles : ProfilesResponse.t)
    (selected : option SelectedProfile.t) :
  TokenStore.loadOAuthTokens w = (Return (Some oauth), w) ->
  OAuthClient.refreshToken (OAuthTokens.refreshToken oauth) w
  = (Return refreshed, w1) ->
  TokenStore.loadSessionTokens w1 = (Return (Some session), w1) ->
  SessionManager.refresh (SessionTokens.sessionToken session) w1
  = (Return None, w2) ->
  OAuthClient.getProfiles (OAuthTokens.accessToken refreshed) w2
  = (Return profiles, w3) ->
  ProfileManager.select autoSelect profiles w3 = (Return selected, w4) ->
  sent w4 = GetProfiles (OAuthTokens.accessToken refreshed) :: sent w2
  /\ match selected with
     | Some profile =>
         forall (t : SessionTokens.t) (w5 : World),
           SessionManager.create (SelectedProfile.uuid profile)
             (OAuthTokens.accessToken refreshed) w4 = (Return t, w5) ->
           AuthCli.refresh autoSelect w = (Return tt, w5)
           /\ sent w5
              = SessionNew (OAuthTokens.accessToken refreshed)
                           (SelectedProfile.uuid profile) :: sent w4
           /\ session_tokens (store w5) = Some (Holds t)
     | None =>
         AuthCli.refresh autoSelect w = (Return tt, w4)
         /\ session_tokens (store w4) = Some (Holds session)
     end.
Proof.
  intros Hload Hoauth Hsession Hrefresh Hprofiles Hselect.
  destruct (getProfiles_returns _ _ _ _ Hprofiles) as (Hsent3 & Hkeep3 & _).
  destruct (select_returns _ _ _ _ _ Hselect)
    as (Hsent4 & _ & _ & Hkeep4 & _ & Hsame).
  split; [congruence|].
  assert (Hflow : forall k : option SelectedProfile.t -> M unit,
             (oauth' <- TokenStore.loadOAuthTokens ;;
              match oauth' with
              | None => exit 1
              | Some oauth' =>
                  refreshedOAuth <-
                    OAuthClient.refreshToken (OAuthTokens.refreshToken oauth') ;;
                  session' <- TokenStore.loadSessionTokens ;;
                  match session' with
                  | Some session' =>
                      refreshedSession <-
                        SessionManager.refresh
                          (SessionTokens.sessionToken session') ;;
                      match refreshedSession with
                      | Some _ => ret tt
                      | None =>
                          profiles' <- OAuthClient.getProfiles
                                         (OAuthTokens.accessToken refreshedOAuth) ;;
                          selected' <- ProfileManager.select autoSelect profiles' ;;
                          k selected'
                      end
                  | None => ret tt
                  end
              end) w
             = k selected w4).
  { intros k. unfold bind.
    rewrite Hload, Hoauth, Hsession, Hrefresh, Hprofiles, Hselect.
    reflexivity. }
  destruct selected as [profile|].
  - intros t w5 Hcreate.
    destruct (create_returns _ _ _ _ _ Hcreate) as (Hsent5 & Hheld).
    repeat split; try assumption.
    unfold AuthCli.refresh.
    etransitivity; [|etransitivity].
    2: apply (Hflow (fun selected' =>
                match selected' with
                | Some selected' =>
                    SessionManager.create (SelectedProfile.uuid selected')
                      (OAuthTokens.accessToken refreshed) ;;;
                    ret tt
                | None => ret tt
                end)).
    + unfold bind. rewrite Hload, Hoauth, Hsession, Hrefresh, Hprofiles, Hselect.
      reflexivity.
    + unfold bind. rewrite Hcreate. reflexivity.
  - split.
    + unfold AuthCli.refresh, bind.
      rewrite Hload, Hoauth, Hsession, Hrefresh, Hprofiles, Hselect.
      reflexivity.
    + rewrite Hkeep4, Hkeep3.
      apply session_refresh_null_stays in Hrefresh.
      rewrite Hrefresh.
      unfold TokenStore.loadSessionTokens in Hsession. run.
      destruct (session_tokens (store w1)) as [[|doc]|]; cbn in Hsession;
        congruence.
Qed.

End RefreshCommand.

(** C4, as stated, fails: with two profiles, no saved selection and
    auto-selection disabled, a reachable server and a session refresh that
    returns [null], the command ends without asking for a new session;
    the store still holds the session credential that could not be
    refreshed. *)
Lemma refresh_defers_without_creating :
  let w := Scenario.world 1500000 Scenario.stored Scenario.stale_session in
  let after := @AuthCli.refresh Scenario.runtime false w in
  (exists refreshed w1 w2,
      OAuthClient.refreshToken "rt-1" w = (Return refreshed, w1)
      /\ @SessionManager.refresh Scenario.runtime "st-1" w1 = (Return None, w2))
  /\ fst after = Return tt
  /\ sent (snd after)
     = [GetProfiles "at-2"; SessionRefresh "st-1"; RefreshToken "rt-1"]
  /\ (forall accessToken profileUuid,
         ~ In (SessionNew accessToken profileUuid) (sent (snd after)))
  /\ session_tokens (store (snd after)) = Some (Holds Scenario.session).
Proof.
  intros w after. split; [|split; [|split; [|split]]].
  - eexists _, _, _. split; reflexivity.
  - reflexivity.
  - reflexivity.
  - intros accessToken profileUuid [Hin|[Hin|[Hin|[]]]]; discriminate Hin.
  - reflexivity.
Qed.

Lemma refresh_falls_back_to_creation_witness :
  let w := Scenario.world 1500000 Scenario.stored Scenario.stale_session in
  exists (t : SessionTokens.t) (w5 : World),
    @AuthCli.refresh Scenario.runtime true w = (Return tt, w5)
    /\ sent w5
       = [SessionNew "at-2" "abc123"; GetProfiles "at-2";
          SessionRefresh "st-1"; RefreshToken "rt-1"]
    /\ session_tokens (store w5) = Some (Holds t)
    /\ SessionTokens.sessionToken t = "st-2".
Proof.
  intros w.
  edestruct (@refresh_falls_back_to_creation Scenario.runtime true w)
    as [Hsent Hcreate]; [lazy; reflexivity..|].
  lazy iota in Hcreate.
  edestruct Hcreate as (Hrun & Hsent5 & Hheld); [lazy; reflexivity|].
  eexists _, _. split; [exact Hrun|]. split; [|split].
  - rewrite Hsent5, Hsent. reflexivity.
  - exact Hheld.
  - reflexivity.
Defined.

(** ** Device-code polling *)

(** One turn of the loop: the sleep always happens, a turn that goes on
    polling keeps or raises the interval and writes nothing, a turn that
    issues a credential has saved it. *)
Lemma pollOnce_effect (state : DeviceCodeState.t) (interval : Z)
    (w w' : World) (out : Outcome OAuthClient.Poll) :
  OAuthClient.pollOnce state interval w = (out, w') ->
  clock w' = clock w + Z.max 0 (interval * 1000)
  /\ remote w' = remote w
  /\ match out with
     | Return (OAuthClient.Retry interval') =>
         (interval' = interval \/ interval' = interval + 5)
         /\ store w' = store w
     | Return (OAuthClient.Issued tokens) =>
         oauth_tokens (store w') = Some (Holds (oauth_document tokens))
     | Throw e => e <> DeviceCodeTimeout /\ store w' = store w
     | Exit _ => False
     end.
Proof.
  unfold OAuthClient.pollOnce, OAuthClient.createTokens. run.
  destruct (token_endpoint (remote w) _) as [|status [data|]]; run;
    try (intros Hrun; injection Hrun as <- <-; repeat split; discriminate).
  destruct (JS.truthy (TokenResponse.error data)).
  - repeat match goal with
           | |- context [if String.eqb ?a ?b then _ else _] =>
               destruct (String.eqb a b)
           end;
      intros Hrun; injection Hrun as <- <-; repeat split;
      auto; discriminate.
  - destruct (_ && _); run;
      intros Hrun; injection Hrun as <- <-; repeat split; auto.
Qed.


Section PollLoop.
Variable state : DeviceCodeState.t.






End PollLoop.




(** Why the interval has to be positive: with an interval of 0 the
    elapsed time never moves, and against a server that keeps answering
    [authorization_pending] no amount of fuel ends the loop. *)
Lemma poll_with_zero_interval_goes_on (fuel : nat) (w : World) :
  remote w = Scenario.never_approves ->
  OAuthClient.pollForToken fuel (Scenario.grant 7 0) w = None.
Proof.
  unfold OAuthClient.pollForToken.
  cbn [DeviceCodeState.interval Scenario.grant].
  revert w. induction fuel as [|fuel IH]; intros w Hremote; [reflexivity|].
  cbn [OAuthClient.pollLoop].
  change (0 <? DeviceCodeState.expiresIn (Scenario.grant 7 0)) with true.
  cbv iota.
  assert (Hturn : OAuthClient.pollOnce (Scenario.grant 7 0) 0 w
                  = (Return (OAuthClient.Retry 0),
                     mkWorld (clock w + 0) (store w) (remote w)
                             (DeviceToken "dc-1" :: sent w))).
  { unfold OAuthClient.pollOnce. run. rewrite Hremote. reflexivity. }
  rewrite Hturn. apply IH. assumption.
Qed.

(** ** The end-to-end scenarios of the specification *)

(** First run, no file present: three [authorization_pending] answers,
    then a token pair; the OAuth file is created with [createdAt + 3600]
    as expiry, 20 seconds after the start. *)
Example first_login :
  let w := Scenario.world 1500000 Scenario.empty_store
             Scenario.approves_fourth_poll in
  exists w',
    OAuthClient.pollForToken 5 (Scenario.grant 900 5) w
    = Some (Return (OAuthTokens.mk "at-2" "rt-2" (1520 + 3600) 1520), w')
    /\ oauth_tokens (store w')
       = Some (Holds (OAuthFile.mk (Some "at-2") (Some "rt-2")
                                   (Some 5120) (Some 1520)))
    /\ written (store w') = [OAUTH_TOKEN_FILE].
Proof. intros w. eexists. split; [vm_compute; reflexivity|]. split; reflexivity. Qed.

(** A set with the single profile Steve: [select] picks it, with and
    without auto-selection, and saves the selection. *)
Example single_profile (autoSelect : bool) :
  let w := Scenario.world 1500000 Scenario.empty_store Scenario.silent in
  let steve := SelectedProfile.mk "abc123" "Steve" 1500 in
  ProfileManager.select autoSelect
    (ProfilesResponse.mk "owner-1" [Scenario.steve]) w
  = (Return (Some steve), with_selection steve w).
Proof. destruct autoSelect; reflexivity. Qed.

(** A session that expires in 200 seconds is expiring, one that expires
    in 400 seconds is not. *)
Example inside_and_outside_the_buffer :
  let w := Scenario.world 1500000 Scenario.empty_store Scenario.silent in
  SessionManager.isExpiring (now w + 200) w = (Return true, w)
  /\ SessionManager.isExpiring (now w + 400) w = (Return false, w).
Proof. split; reflexivity. Qed.

(** * Further properties of the code *)

(** ** Polling: what is sent and what is written *)

Lemma pollOnce_trace (state : DeviceCodeState.t) (interval : Z)
    (w w' : World) (out : Outcome OAuthClient.Poll) :
  OAuthClient.pollOnce state interval w = (out, w') ->
  sent w' = DeviceToken (DeviceCodeState.deviceCode state) :: sent w
  /\ match out with
     | Return (OAuthClient.Issued tokens) =>
         store w' = TokenStore.write_oauth (oauth_document tokens) (store w)
         /\ OAuthTokens.createdAt tokens = now w'
     | _ => store w' = store w
     end.
Proof.
  unfold OAuthClient.pollOnce, OAuthClient.createTokens. run.
  destruct (token_endpoint (remote w) _) as [|status [data|]]; run;
    try (intros Hrun; injection Hrun as <- <-; split; reflexivity).
  destruct (JS.truthy (TokenResponse.error data)).
  - repeat match goal with
           | |- context [if String.eqb ?a ?b then _ else _] =>
               destruct (String.eqb a b)
           end;
      intros Hrun; injection Hrun as <- <-; split; reflexivity.
  - destruct (_ && _); run;
      intros Hrun; injection Hrun as <- <-; repeat split.
Qed.

Lemma pollLoop_writes (state : DeviceCodeState.t) (fuel : nat)
    (elapsed interval : Z) (w w' : World) (out : Outcome OAuthTokens.t) :
  OAuthClient.pollLoop fuel state elapsed interval w = Some (out, w') ->
  match out with
  | Return tokens =>
      store w' = TokenStore.write_oauth (oauth_document tokens) (store w)
      /\ OAuthTokens.createdAt tokens = now w'
  | _ => store w' = store w
  end.
Proof.
  revert elapsed interval w.
  induction fuel as [|fuel IH]; intros elapsed interval w; [discriminate|].
  cbn [OAuthClient.pollLoop].
  destruct (elapsed <? DeviceCodeState.expiresIn state).
  - destruct (OAuthClient.pollOnce state interval w)
      as [[[interval'|t]|e|c] w1] eqn:Hturn;
      apply pollOnce_trace in Hturn; destruct Hturn as (_ & Hstore).
    + intros Hloop. apply IH in Hloop. now rewrite Hstore in Hloop.
    + intros Hloop. injection Hloop as <- <-. assumption.
    + intros Hloop. injection Hloop as <- <-. assumption.
    + intros Hloop. injection Hloop as <- <-. assumption.
  - intros Hloop. injection Hloop as <- <-. reflexivity.
Qed.

(** X1: [pollForToken] writes to the token store only when it returns a
    credential, and then exactly the OAuth file with that credential,
    stamped with the instant of the return; when it ends in any other way
    (timeout, denial, expiry, an unknown error, no response) the store is
    what it was before the call. *)
Theorem poll_writes_only_on_success (fuel : nat) (state : DeviceCodeState.t)
    (w w' : World) (out : Outcome OAuthTokens.t) :
  OAuthClient.pollForToken fuel state w = Some (out, w') ->
  match out with
  | Return tokens =>
      store w' = TokenStore.write_oauth (oauth_document tokens) (store w)
      /\ OAuthTokens.createdAt tokens = now w'
  | Throw _ | Exit _ => store w' = store w
  end.
Proof.
  intros Hrun. apply pollLoop_writes in Hrun.
  destruct out; assumption.
Qed.

Lemma poll_writes_only_on_success_witness :
  let w := Scenario.world 1500000 Scenario.stored Scenario.never_approves in
  exists w',
    OAuthClient.pollForToken 8 (Scenario.grant 7 5) w
    = Some (Throw DeviceCodeTimeout, w')
    /\ store w' = store w.
Proof.
  intros w. eexists. split; [reflexivity|].
  exact (poll_writes_only_on_success 8 (Scenario.grant 7 5) w _ _ eq_refl).
Defined.

Lemma repeat_snoc {A : Type} (a : A) (n : nat) (l : list A) :
  (repeat a n ++ a :: l = repeat a (S n) ++ l)%list.
Proof.
  induction n as [|n IH]; [reflexivity|].
  cbn [repeat app]. now rewrite IH.
Qed.

Lemma pollLoop_requests (state : DeviceCodeState.t) (least : Z) (fuel : nat)
    (elapsed interval : Z) (w w' : World) (out : Outcome OAuthTokens.t) :
  0 < least <= interval ->
  OAuthClient.pollLoop fuel state elapsed interval w = Some (out, w') ->
  exists n : nat,
    sent w'
    = (repeat (DeviceToken (DeviceCodeState.deviceCode state)) n ++ sent w)%list
    /\ 1000 * (Z.of_nat n * least) <= clock w' - clock w
    /\ (n = O
        \/ elapsed + (Z.of_nat n - 1) * least
           < DeviceCodeState.expiresIn state).
Proof.
  revert elapsed interval w.
  induction fuel as [|fuel IH]; intros elapsed interval w Hleast;
    [discriminate|].
  cbn [OAuthClient.pollLoop].
  destruct (elapsed <? DeviceCodeState.expiresIn state) eqn:Hopen.
  - apply Z.ltb_lt in Hopen.
    destruct (OAuthClient.pollOnce state interval w) as [turn w1] eqn:Hturn.
    pose proof (pollOnce_trace _ _ _ _ _ Hturn) as (Hsent & _).
    apply pollOnce_effect in Hturn. destruct Hturn as (Hclock & _ & Hturn).
    rewrite Z.max_r in Hclock by lia.
    assert (Hone : exists n : nat,
               sent w1
               = (repeat (DeviceToken (DeviceCodeState.deviceCode state)) n
                    ++ sent w)%list
               /\ 1000 * (Z.of_nat n * least) <= clock w1 - clock w
               /\ (n = O
                   \/ elapsed + (Z.of_nat n - 1) * least
                      < DeviceCodeState.expiresIn state)).
    { exists 1%nat. split; [now rewrite Hsent|].
      split; [|right]; lia. }
    destruct turn as [[interval'|t]|e|c];
      try (intros Hloop; injection Hloop as <- <-; exact Hone).
    destruct Hturn as (Hinterval & _).
    intros Hloop. apply IH in Hloop; [|lia].
    destruct Hloop as (n & Hsent' & Hclock' & Hbudget).
    exists (S n). split; [|split].
    + rewrite Hsent', Hsent. apply repeat_snoc.
    + rewrite Nat2Z.inj_succ. nia.
    + right. rewrite Nat2Z.inj_succ.
      destruct Hbudget as [->|Hbudget]; [cbn; lia|nia].
  - intros Hloop. injection Hloop as <- <-.
    exists O. split; [reflexivity|]. split; [lia|now left].
Qed.

(** X2: with a positive interval, everything [pollForToken] sends is a
    device-code token request for the device code of its state; [n]
    such requests take at least [n] times the initial interval, and the
    last of them is sent less than [expiresIn] plus one initial interval
    after the start: the server is never polled faster than it asked for,
    nor more than [expiresIn / interval] times, rounded up. *)
Theorem poll_request_budget (fuel : nat) (state : DeviceCodeState.t)
    (w w' : World) (out : Outcome OAuthTokens.t) :
  0 < DeviceCodeState.interval state ->
  OAuthClient.pollForToken fuel state w = Some (out, w') ->
  exists n : nat,
    sent w'
    = (repeat (DeviceToken (DeviceCodeState.deviceCode state)) n ++ sent w)%list
    /\ 1000 * (Z.of_nat n * DeviceCodeState.interval state)
       <= clock w' - clock w
    /\ (Z.of_nat n - 1) * DeviceCodeState.interval state
       < Z.max 1 (DeviceCodeState.expiresIn state).
Proof.
  intros Hpos Hrun.
  apply (pollLoop_requests state (DeviceCodeState.interval state)) in Hrun;
    [|lia].
  destruct Hrun as (n & Hsent & Hclock & Hbudget).
  exists n. repeat split; try assumption.
  destruct Hbudget as [->|Hbudget]; [change (Z.of_nat 0) with 0|]; lia.
Qed.

Lemma poll_request_budget_witness :
  let w := Scenario.world 1500000 Scenario.empty_store Scenario.approves_late in
  0 < DeviceCodeState.interval (Scenario.grant 7 5)
  /\ exists (n : nat) (w' : World) (out : Outcome OAuthTokens.t),
      OAuthClient.pollForToken 2 (Scenario.grant 7 5) w = Some (out, w')
      /\ sent w' = (repeat (DeviceToken "dc-1") n ++ sent w)%list
      /\ (Z.of_nat n - 1) * 5 < Z.max 1 7.
Proof.
  intros w. split; [reflexivity|].
  destruct (OAuthClient.pollForToken 2 (Scenario.grant 7 5) w)
    as [[out w']|] eqn:Hrun; [|discriminate Hrun].
  destruct (poll_request_budget 2 (Scenario.grant 7 5) w w' out
              eq_refl Hrun) as (n & Hsent & _ & Hbudget).
  exists n, w', out. split; [reflexivity|]. split; assumption.
Defined.

Lemma pollOnce_pending (state : DeviceCodeState.t) (interval : Z) (w : World) :
  keeps_pending (remote w) ->
  OAuthClient.pollOnce state interval w
  = (Return (OAuthClient.Retry interval),
     mkWorld (clock w + Z.max 0 (interval * 1000)) (store w) (remote w)
             (DeviceToken (DeviceCodeState.deviceCode state) :: sent w)).
Proof.
  intros Hpending.
  destruct (Hpending (DeviceToken (DeviceCodeState.deviceCode state) :: sent w))
    as (status & data & Hreply & Herror).
  unfold OAuthClient.pollOnce. run. rewrite Hreply. run.
  rewrite Herror. reflexivity.
Qed.

(** X3: [pollForToken] relies on the interval to reach its deadline.
    With an interval of zero or less and a window still open, as long as
    the server answers [authorization_pending] the elapsed time never
    reaches [expiresIn]: the loop has no end, whatever the number of
    turns allowed. *)
Theorem poll_without_interval_never_ends (fuel : nat)
    (state : DeviceCodeState.t) (w : World) :
  DeviceCodeState.interval state <= 0 ->
  0 < DeviceCodeState.expiresIn state ->
  keeps_pending (remote w) ->
  OAuthClient.pollForToken fuel state w = None.
Proof.
  intros Hinterval Hwindow. unfold OAuthClient.pollForToken.
  assert (Hloop : forall elapsed w0,
             elapsed <= 0 -> keeps_pending (remote w0) ->
             OAuthClient.pollLoop fuel state elapsed
               (DeviceCodeState.interval state) w0 = None).
  { induction fuel as [|fuel IH]; intros elapsed w0 Helapsed Hpending;
      [reflexivity|].
    cbn [OAuthClient.pollLoop].
    replace (elapsed <? DeviceCodeState.expiresIn state) with true
      by (symmetry; apply Z.ltb_lt; lia).
    rewrite (pollOnce_pending state _ w0 Hpending).
    apply IH; [lia|exact Hpending]. }
  intros Hpending. apply Hloop; [lia|assumption].
Qed.

Lemma poll_without_interval_never_ends_witness :
  let w := Scenario.world 1500000 Scenario.empty_store Scenario.never_approves in
  (DeviceCodeState.interval (Scenario.grant 900 0) <= 0
   /\ 0 < DeviceCodeState.expiresIn (Scenario.grant 900 0))
  /\ OAuthClient.pollForToken 1000 (Scenario.grant 900 0) w = None.
Proof.
  intros w. split; [split; [cbn; lia|reflexivity]|].
  apply poll_without_interval_never_ends; [cbn; lia|reflexivity|].
  intros history. exists 200, Scenario.pending. split; reflexivity.
Defined.

(** ** OAuth credentials: issue, failure, reload *)

(** X4: a credential returned by [refreshToken] is created at the
    instant of the return and expires [expires_in] seconds later, 3600
    when the server states none.  Hence [needsRefresh] holds for it from
    [lifetime - 300] seconds after its creation on: 3300 seconds by
    default, and at once when the server grants 300 seconds or less. *)
Theorem refreshed_credential_due (prior : string) (w : World)
    (status : Z) (data : TokenResponse.t) :
  token_endpoint (remote w) (RefreshToken prior :: sent w)
  = Http status (Some data) ->
  JS.truthy (TokenResponse.error data) = false ->
  JS.truthy (TokenResponse.access_token data) = true ->
  let lifetime := JS.nullish (TokenResponse.expires_in data) 3600 in
  exists (t : OAuthTokens.t) (w' : World),
    OAuthClient.refreshToken prior w = (Return t, w')
    /\ OAuthTokens.createdAt t = now w'
    /\ OAuthTokens.expiresAt t = OAuthTokens.createdAt t + lifetime
    /\ (forall later : World,
          OAuthClient.needsRefresh (OAuthTokens.expiresAt t) later
          = (Return (lifetime - 300 <=? now later - OAuthTokens.createdAt t),
             later))
    /\ OAuthClient.needsRefresh (OAuthTokens.expiresAt t) w'
       = (Return (lifetime <=? 300), w').
Proof.
  intros Hreply Herror Haccess lifetime.
  unfold OAuthClient.refreshToken, OAuthClient.createTokens. run.
  rewrite Hreply. run. rewrite Herror, Haccess. run.
  eexists _, _. split; [reflexivity|]. cbn.
  fold lifetime.
  repeat split.
  - intros later. unfold OAuthClient.needsRefresh. run.
    unfold OAuthClient.REFRESH_BUFFER. do 2 f_equal.
    unfold now; cbn.
    destruct (lifetime - 300 <=? clock later / 1000 - clock w / 1000) eqn:Hdue.
    + apply Z.leb_le in Hdue. apply Z.geb_le. lia.
    + apply Z.leb_gt in Hdue.
      destruct (clock later / 1000 >=? clock w / 1000 + lifetime - 300)
        eqn:Hge; [|reflexivity].
      apply Z.geb_le in Hge. lia.
  - unfold OAuthClient.needsRefresh. run.
    unfold OAuthClient.REFRESH_BUFFER. do 2 f_equal.
    unfold now; cbn.
    destruct (lifetime <=? 300) eqn:Hdue.
    + apply Z.leb_le in Hdue. apply Z.geb_le. lia.
    + apply Z.leb_gt in Hdue.
      destruct (clock w / 1000 >=? clock w / 1000 + lifetime - 300)
        eqn:Hge; [|reflexivity].
      apply Z.geb_le in Hge. lia.
Qed.

Lemma refreshed_credential_due_witness :
  let w := Scenario.world 1500000 Scenario.stored
             (Scenario.token_server (Scenario.token_reply None)) in
  exists (t : OAuthTokens.t) (w' : World),
    OAuthClient.refreshToken "rt-1" w = (Return t, w')
    /\ OAuthTokens.expiresAt t = OAuthTokens.createdAt t + 7200
    /\ OAuthClient.needsRefresh (OAuthTokens.expiresAt t) w'
       = (Return false, w').
Proof.
  intros w.
  destruct (refreshed_credential_due "rt-1" w 200 (Scenario.token_reply None)
              eq_refl eq_refl eq_refl)
    as (t & w' & Hrun & _ & Hexpiry & _ & Hdue).
  exists t, w'. repeat split; assumption.
Defined.

Lemma loadOAuthTokens_depends (w w' : World) :
  store w' = store w -> clock w' = clock w ->
  fst (TokenStore.loadOAuthTokens w') = fst (TokenStore.loadOAuthTokens w).
Proof.
  intros Hstore Hclock. unfold TokenStore.loadOAuthTokens. run.
  rewrite Hstore.
  destruct (TokenStore.read (oauth_tokens (store w))) as [data|];
    [|reflexivity].
  destruct (_ || _); [reflexivity|]. cbn. unfold now. now rewrite Hclock.
Qed.

Lemma refresh_token_failure_frame (prior : string) (w w' : World) (e : Error) :
  OAuthClient.refreshToken prior w = (Throw e, w') ->
  store w' = store w
  /\ sent w' = RefreshToken prior :: sent w
  /\ clock w' = clock w.
Proof.
  unfold OAuthClient.refreshToken, OAuthClient.createTokens. run.
  destruct (token_endpoint (remote w) _) as [|status [data|]]; run.
  - intros Hrun. injection Hrun as <- <-. repeat split.
  - destruct (JS.truthy (TokenResponse.error data));
      [intros Hrun; injection Hrun as <- <-; repeat split|].
    destruct (JS.truthy (TokenResponse.access_token data)); cbn [negb];
      [discriminate|].
    intros Hrun. injection Hrun as <- <-. repeat split.
  - intros Hrun. injection Hrun as <- <-. repeat split.
Qed.

(** X5: [refreshToken] sends one request.  When it throws, whatever the
    reason, nothing has been written: the stored OAuth credential is the
    one from before and loads as before.  An error reported by the
    server wins over everything else in the response: it is thrown even
    if the response also carries an access token. *)
Theorem refresh_token_failure (prior : string) (w : World) :
  (forall (e : Error) (w' : World),
      OAuthClient.refreshToken prior w = (Throw e, w') ->
      store w' = store w
      /\ sent w' = RefreshToken prior :: sent w
      /\ fst (TokenStore.loadOAuthTokens w')
         = fst (TokenStore.loadOAuthTokens w))
  /\ (forall (status : Z) (data : TokenResponse.t),
      token_endpoint (remote w) (RefreshToken prior :: sent w)
      = Http status (Some data) ->
      JS.truthy (TokenResponse.error data) = true ->
      fst (OAuthClient.refreshToken prior w)
      = Throw (TokenRefreshFailed (JS.non_null (TokenResponse.error data))))
  /\ (forall (status : Z) (data : TokenResponse.t),
      token_endpoint (remote w) (RefreshToken prior :: sent w)
      = Http status (Some data) ->
      JS.truthy (TokenResponse.error data) = false ->
      JS.truthy (TokenResponse.access_token data) = false ->
      fst (OAuthClient.refreshToken prior w) = Throw NoAccessToken).
Proof.
  split; [|split].
  - intros e w' Hrun.
    pose proof (refresh_token_failure_frame _ _ _ _ Hrun) as Hkeep.
    destruct Hkeep as (Hstore & Hsent & Hclock).
    split; [assumption|]. split; [assumption|].
    now apply loadOAuthTokens_depends.
  - intros status data Hreply Herror.
    unfold OAuthClient.refreshToken. run. rewrite Hreply. run.
    now rewrite Herror.
  - intros status data Hreply Herror Haccess.
    unfold OAuthClient.refreshToken. run. rewrite Hreply. run.
    now rewrite Herror, Haccess.
Qed.

Lemma refresh_token_failure_witness :
  let denied :=
    TokenResponse.mk (Some "at-2") (Some "rt-2") None None None
                     (Some "invalid_grant") None in
  let w := Scenario.world 1500000 Scenario.stored
             (Scenario.token_server denied) in
  fst (OAuthClient.refreshToken "rt-1" w)
  = Throw (TokenRefreshFailed "invalid_grant")
  /\ store (snd (OAuthClient.refreshToken "rt-1" w)) = store w.
Proof.
  intros denied w.
  destruct (refresh_token_failure "rt-1" w) as (Hkeeps & Herror & _).
  split.
  - exact (Herror 200 denied eq_refl eq_refl).
  - exact (proj1 (Hkeeps (TokenRefreshFailed "invalid_grant")
                    (snd (OAuthClient.refreshToken "rt-1" w)) eq_refl)).
Defined.

(** X6: what [loadOAuthTokens] hands out.  It changes nothing; a
    credential it returns never has an empty access or refresh token;
    and when the file states no expiry the credential gets the expiry 0,
    so that [needsRefresh] holds for it at any time from the epoch on. *)
Theorem loaded_oauth_credential (w w' : World) (t : OAuthTokens.t) :
  TokenStore.loadOAuthTokens w = (Return (Some t), w') ->
  w' = w
  /\ OAuthTokens.accessToken t <> ""
  /\ OAuthTokens.refreshToken t <> ""
  /\ (forall doc,
        oauth_tokens (store w) = Some (Holds doc) ->
        OAuthFile.expires_at doc = None ->
        OAuthTokens.expiresAt t = 0
        /\ forall later : World,
            0 <= clock later ->
            OAuthClient.needsRefresh (OAuthTokens.expiresAt t) later
            = (Return true, later)).
Proof.
  unfold TokenStore.loadOAuthTokens. run.
  destruct (oauth_tokens (store w)) as [[|data]|]; run; try discriminate.
  destruct (JS.truthy (OAuthFile.access_token data)) eqn:Ha;
    [|discriminate].
  destruct (JS.truthy (OAuthFile.refresh_token data)) eqn:Hr;
    [|discriminate].
  cbn [negb orb].
  destruct (truthy_inv _ Ha) as (a & _ & Hane & Ha'),
           (truthy_inv _ Hr) as (r & _ & Hrne & Hr').
  intros Hrun. injection Hrun as <- <-. cbn.
  rewrite Ha', Hr'.
  split; [reflexivity|]. split; [assumption|]. split; [assumption|].
  intros doc Hdoc Hnone. injection Hdoc as <-. rewrite Hnone.
  split; [reflexivity|].
  intros later Hlater. cbn.
  unfold OAuthClient.needsRefresh. run. do 2 f_equal.
  apply Z.geb_le. unfold OAuthClient.REFRESH_BUFFER, now. cbn.
  pose proof (Z.div_pos (clock later) 1000 Hlater). lia.
Qed.

Lemma loaded_oauth_credential_witness :
  let legacy :=
    mkStore (Some (Holds (OAuthFile.mk (Some "at-1") (Some "rt-1") None None)))
            None None None [] in
  let w := Scenario.world 1500000 legacy Scenario.silent in
  exists t,
    TokenStore.loadOAuthTokens w = (Return (Some t), w)
    /\ OAuthTokens.expiresAt t = 0
    /\ OAuthClient.needsRefresh (OAuthTokens.expiresAt t) w = (Return true, w).
Proof.
  intros legacy w. eexists. split; [reflexivity|].
  destruct (loaded_oauth_credential w w _ eq_refl) as (_ & _ & _ & Hlegacy).
  destruct (Hlegacy _ eq_refl eq_refl) as (Hzero & Hdue).
  split; [exact Hzero|]. apply Hdue. cbn. lia.
Defined.

(** ** The profile cache *)



(** ** Sessions: acceptance, failure, expiry, termination *)

Section Sessions.
Context `{Runtime}.

(** The credential built from a session response at a given world. *)
Lemma create_cases (profileUuid accessToken : string) (w : World)
    (status : Z) (body : option SessionResponse.t) :
  session_endpoint (remote w) (SessionNew accessToken profileUuid :: sent w)
  = Http status body ->
  let w1 := mkWorld (clock w) (store w) (remote w)
                    (SessionNew accessToken profileUuid :: sent w) in
  SessionManager.create profileUuid accessToken w
  = match body with
    | None => (Throw JsonSyntaxError, w1)
    | Some data =>
        if JS.truthy (SessionResponse.error data) then
          (Throw (CreateSessionFailed
                    (JS.non_null (SessionResponse.error data))
                    (JS.nullish (SessionResponse.error_description data)
                       (JS.nullish (SessionResponse.message data) ""))), w1)
        else if complete data then
          let t :=
            SessionTokens.mk
              (JS.non_null (SessionResponse.sessionToken data))
              (JS.non_null (SessionResponse.identityToken data))
              (JS.non_null (SessionResponse.expiresAt data))
              (match Date_parse (JS.non_null (SessionResponse.expiresAt data))
               with
               | Some parsed => parsed / 1000
               | None => now w + 3600
               end)
              (now w) in
          (Return t,
           mkWorld (clock w) (TokenStore.write_session t (store w))
                   (remote w) (sent w1))
        else (Throw InvalidSessionResponse, w1)
    end.
Proof.
  intros Hreply w1. subst w1.
  unfold SessionManager.create, SessionManager.parseExpiry, complete. run.
  rewrite Hreply. run.
  destruct body as [data|]; [|reflexivity]. run.
  destruct (JS.truthy (SessionResponse.error data)); [reflexivity|].
  destruct (JS.truthy (SessionResponse.sessionToken data));
    [|reflexivity].
  destruct (JS.truthy (SessionResponse.identityToken data));
    [|reflexivity].
  destruct (JS.truthy (SessionResponse.expiresAt data)); [|reflexivity].
  cbn [negb orb andb].
  destruct (Date_parse _); reflexivity.
Qed.

(** X8: when [create] throws, nothing has been written and the stored
    session credential is the one from before.  An error reported by the
    server is thrown even when the response carries all three tokens,
    with the description, else the message, else nothing as detail; a
    response without error that lacks a token is rejected as invalid. *)
Theorem create_failure (profileUuid accessToken : string) (w : World) :
  (forall (e : Error) (w' : World),
      SessionManager.create profileUuid accessToken w = (Throw e, w') ->
      store w' = store w
      /\ sent w' = SessionNew accessToken profileUuid :: sent w)
  /\ (forall (status : Z) (data : SessionResponse.t),
      session_endpoint (remote w)
        (SessionNew accessToken profileUuid :: sent w)
      = Http status (Some data) ->
      (JS.truthy (SessionResponse.error data) = true ->
       fst (SessionManager.create profileUuid accessToken w)
       = Throw (CreateSessionFailed
                  (JS.non_null (SessionResponse.error data))
                  (JS.nullish (SessionResponse.error_description data)
                     (JS.nullish (SessionResponse.message data) ""))))
      /\ (JS.truthy (SessionResponse.error data) = false ->
          complete data = false ->
          fst (SessionManager.create profileUuid accessToken w)
          = Throw InvalidSessionResponse)).
Proof.
  split.
  - intros e w'.
    destruct (session_endpoint (remote w)
                (SessionNew accessToken profileUuid :: sent w))
      as [|status body] eqn:Hreply.
    + unfold SessionManager.create. run. rewrite Hreply.
      intros Hrun. injection Hrun as <- <-. split; reflexivity.
    + rewrite (create_cases _ _ _ _ _ Hreply).
      destruct body as [data|];
        [destruct (JS.truthy (SessionResponse.error data));
         [|destruct (complete data); [discriminate|]]|];
        intros Hrun; injection Hrun as <- <-; split; reflexivity.
  - intros status data Hreply.
    rewrite (create_cases _ _ _ _ _ Hreply).
    split.
    + intros ->. reflexivity.
    + intros -> ->. reflexivity.
Qed.

(** The credential [refresh] builds when it accepts a response. *)
Lemma refresh_accepts (sessionToken : string) (w : World)
    (status : Z) (data : SessionResponse.t) :
  session_endpoint (remote w) (SessionRefresh sessionToken :: sent w)
  = Http status (Some data) ->
  ok status = true ->
  complete data = true ->
  let t :=
    SessionTokens.mk
      (JS.non_null (SessionResponse.sessionToken data))
      (JS.non_null (SessionResponse.identityToken data))
      (JS.non_null (SessionResponse.expiresAt data))
      (match Date_parse (JS.non_null (SessionResponse.expiresAt data)) with
       | Some parsed => parsed / 1000
       | None => now w + 3600
       end)
      (now w) in
  SessionManager.refresh sessionToken w
  = (Return (Some t),
     mkWorld (clock w) (TokenStore.write_session t (store w)) (remote w)
             (SessionRefresh sessionToken :: sent w)).
Proof.
  intros Hreply Hok Hcomplete t. subst t.
  unfold SessionManager.refresh, SessionManager.parseExpiry. run.
  rewrite Hreply. run. rewrite Hok. cbn [negb].
  unfold complete in Hcomplete. rewrite Hcomplete.
  destruct (Date_parse _); reflexivity.
Qed.

(** X9: [create] and [refresh] do not accept the same responses.  For a
    response with the three tokens, [create] accepts it exactly when it
    carries no error, whatever the status; [refresh] accepts it exactly
    when the status is 2xx, whatever error it carries.  A response both
    accept gives the same credential and the same store. *)
Theorem session_acceptance (profileUuid accessToken sessionToken : string)
    (w : World) (status : Z) (data : SessionResponse.t) :
  session_endpoint (remote w) (SessionNew accessToken profileUuid :: sent w)
  = Http status (Some data) ->
  session_endpoint (remote w) (SessionRefresh sessionToken :: sent w)
  = Http status (Some data) ->
  complete data = true ->
  let created := SessionManager.create profileUuid accessToken w in
  let refreshed := SessionManager.refresh sessionToken w in
  ((exists t, fst created = Return t)
   <-> JS.truthy (SessionResponse.error data) = false)
  /\ ((exists t, fst refreshed = Return (Some t)) <-> ok status = true)
  /\ (forall t t',
        fst created = Return t -> fst refreshed = Return (Some t') ->
        t = t' /\ store (snd created) = store (snd refreshed)).
Proof.
  intros Hcreate Hrefresh Hcomplete created refreshed.
  subst created refreshed.
  rewrite (create_cases _ _ _ _ _ Hcreate), Hcomplete.
  destruct (ok status) eqn:Hok.
  - rewrite (refresh_accepts _ _ _ _ Hrefresh Hok Hcomplete).
    destruct (JS.truthy (SessionResponse.error data)); cbn [fst snd].
    + split; [split; [intros (t0 & Ht0)|]; discriminate|].
      split; [split; eauto|]. intros t0 t' Ht0. discriminate.
    + split; [split; eauto|]. split; [split; eauto|].
      intros t0 t' Ht0 Ht'. injection Ht0 as <-. injection Ht' as <-.
      split; reflexivity.
  - destruct (refresh_cases sessionToken w status (Some data) Hrefresh)
      as [(Hok' & _)|(_ & Hrun)]; [congruence|].
    rewrite Hrun. cbn [fst snd].
    split; [|split].
    + destruct (JS.truthy (SessionResponse.error data)); cbn [fst];
        (split; [intros (t & Ht)|intros Hno]);
        eauto; discriminate.
    + split; [intros (t & Ht); discriminate|discriminate].
    + intros t t' _ Ht'. discriminate.
Qed.

End Sessions.

Lemma create_failure_witness :
  let data :=
    SessionResponse.mk (Some "st-2") None (Some Scenario.new_year)
                       None None None in
  let w := Scenario.world 1500000 Scenario.stored
             (Scenario.session_server 200 (Some data)) in
  fst (@SessionManager.create Scenario.runtime "abc123" "at-1" w)
  = Throw InvalidSessionResponse
  /\ store (snd (@SessionManager.create Scenario.runtime "abc123" "at-1" w))
     = store w.
Proof.
  intros data w.
  destruct (@create_failure Scenario.runtime "abc123" "at-1" w)
    as (Hkeeps & Hwhich).
  split.
  - exact (proj2 (Hwhich 200 data eq_refl) eq_refl eq_refl).
  - exact (proj1 (Hkeeps InvalidSessionResponse _ eq_refl)).
Defined.

Lemma session_acceptance_witness :
  let data := Scenario.session_reply Scenario.new_year (Some "warning") in
  let w := Scenario.world 1500000 Scenario.stored
             (Scenario.session_server 200 (Some data)) in
  complete data = true
  /\ ~ (exists t,
           fst (@SessionManager.create Scenario.runtime "abc123" "at-1" w)
           = Return t)
  /\ exists t,
      fst (@SessionManager.refresh Scenario.runtime "st-1" w)
      = Return (Some t).
Proof.
  intros data w.
  destruct (@session_acceptance Scenario.runtime "abc123" "at-1" "st-1" w
              200 data eq_refl eq_refl eq_refl)
    as (Hcreate & Hrefresh & _).
  split; [reflexivity|]. split.
  - intros Hcreated. apply Hcreate in Hcreated. discriminate.
  - apply Hrefresh. reflexivity.
Defined.

Section FreshSessions.
Context `{Runtime}.

(** X10: a session credential is judged by [isExpiring] on the epoch
    that [create] derived.  With an expiry string that cannot be parsed,
    the credential just created is never expiring (it has 3600 seconds);
    with one that can, it is expiring at once when the parsed instant is
    300 seconds away or less, for instance when it is in the past. *)
Theorem created_session_expiring (profileUuid accessToken : string)
    (w w' : World) (t : SessionTokens.t) :
  SessionManager.create profileUuid accessToken w = (Return t, w') ->
  SessionManager.isExpiring (SessionTokens.expiresEpoch t) w'
  = (Return match Date_parse (SessionTokens.expiresAt t) with
            | Some parsed => parsed / 1000 - 300 <=? now w'
            | None => false
            end, w').
Proof.
  destruct (session_endpoint (remote w)
              (SessionNew accessToken profileUuid :: sent w))
    as [|status body] eqn:Hreply.
  - unfold SessionManager.create. run. rewrite Hreply. discriminate.
  - rewrite (create_cases _ _ _ _ _ Hreply).
    destruct body as [data|]; [|discriminate].
    destruct (JS.truthy (SessionResponse.error data)); [discriminate|].
    destruct (complete data); [|discriminate].
    intros Hrun. injection Hrun as <- <-.
    unfold SessionManager.isExpiring, SessionManager.REFRESH_BUFFER. run.
    do 2 f_equal. unfold now. cbn.
    destruct (Date_parse _) as [parsed|].
    + destruct (parsed / 1000 - 300 <=? clock w / 1000) eqn:Hdue.
      * apply Z.leb_le in Hdue. apply Z.geb_le. lia.
      * apply Z.leb_gt in Hdue.
        destruct (clock w / 1000 >=? parsed / 1000 - 300) eqn:Hge;
          [|reflexivity].
        apply Z.geb_le in Hge. lia.
    + destruct (clock w / 1000 >=? clock w / 1000 + 3600 - 300) eqn:Hge;
        [|reflexivity].
      apply Z.geb_le in Hge. lia.
Qed.

(** X11: [terminate] sends one DELETE request and ignores the answer: it
    returns normally on every status, and throws only when there is no
    response at all.  It never touches the token store: the session
    credential it has just terminated is still the one that
    [loadSessionTokens] returns. *)
Theorem terminate_keeps_store (sessionToken : string) (w : World) :
  let after := SessionManager.terminate sessionToken w in
  fst after
  = match session_endpoint (remote w)
            (SessionDelete sessionToken :: sent w) with
    | Unreachable => Throw FetchFailed
    | Http _ _ => Return tt
    end
  /\ sent (snd after) = SessionDelete sessionToken :: sent w
  /\ store (snd after) = store w
  /\ fst (TokenStore.loadSessionTokens (snd after))
     = fst (TokenStore.loadSessionTokens w).
Proof.
  unfold SessionManager.terminate. run.
  destruct (session_endpoint (remote w) _) as [|status body];
    repeat split.
Qed.

End FreshSessions.

Lemma created_session_expiring_witness :
  let w := Scenario.world 1800000000000 Scenario.stored
             (Scenario.session_server 200
                (Some (Scenario.session_reply Scenario.new_year None))) in
  exists t w',
    @SessionManager.create Scenario.runtime "abc123" "at-1" w = (Return t, w')
    /\ SessionManager.isExpiring (SessionTokens.expiresEpoch t) w'
       = (Return true, w').
Proof.
  intros w. eexists _, _. split; [lazy; reflexivity|].
  apply (@created_session_expiring Scenario.runtime "abc123" "at-1" w).
  lazy; reflexivity.
Defined.

(** ** Selecting a profile *)

(** X12: on a profile set that is not empty, [select] never throws and
    resolves in this order: a saved selection whose UUID is in the set
    is returned as saved and nothing is written; otherwise a single
    profile is selected and saved, whatever the configuration; otherwise,
    with auto-selection, the first profile is selected and saved;
    otherwise [null] is returned and nothing is written. *)
Theorem select_priority_order (autoSelect : bool)
    (profiles : ProfilesResponse.t) (w : World)
    (first : Profile.t) (others : list Profile.t) :
  ProfilesResponse.profiles profiles = first :: others ->
  let saved := TokenStore.read (selected_profile (store w)) in
  let chosen := selection_of first w in
  (reusable saved profiles = true ->
   ProfileManager.select autoSelect profiles w = (Return saved, w))
  /\ (reusable saved profiles = false -> others = [] ->
      ProfileManager.select autoSelect profiles w
      = (Return (Some chosen), with_selection chosen w))
  /\ (reusable saved profiles = false -> others <> [] -> autoSelect = true ->
      ProfileManager.select autoSelect profiles w
      = (Return (Some chosen), with_selection chosen w))
  /\ (reusable saved profiles = false -> others <> [] -> autoSelect = false ->
      ProfileManager.select autoSelect profiles w = (Return None, w)).
Proof.
  intros Hprofiles saved chosen. subst saved chosen.
  rewrite (select_resolution autoSelect profiles w first others Hprofiles).
  repeat split.
  - now intros ->.
  - now intros -> ->.
  - intros -> Hmany ->. destruct others; [contradiction|reflexivity].
  - intros -> Hmany ->. destruct others; [contradiction|reflexivity].
Qed.

Lemma select_priority_order_witness :
  let saved := SelectedProfile.mk "def456" "Alex" 1400 in
  let w := Scenario.world 1500000
             (TokenStore.write_selected saved Scenario.empty_store)
             Scenario.silent in
  ProfilesResponse.profiles Scenario.both = [Scenario.steve; Scenario.alex]
  /\ reusable (Some saved) Scenario.both = true
  /\ ProfileManager.select true Scenario.both w = (Return (Some saved), w).
Proof.
  intros saved w. split; [reflexivity|]. split; [reflexivity|].
  exact (proj1 (select_priority_order true Scenario.both w Scenario.steve
                  [Scenario.alex] eq_refl) eq_refl).
Defined.

Lemma reusable_in (s : SelectedProfile.t) (profiles : ProfilesResponse.t)
    (p : Profile.t) :
  In p (ProfilesResponse.profiles profiles) ->
  Profile.uuid p = SelectedProfile.uuid s ->
  reusable (Some s) profiles = true.
Proof.
  intros Hin Huuid. unfold reusable. apply existsb_exists.
  exists p. split; [assumption|]. now apply String.eqb_eq.
Qed.

Lemma select_reuses (autoSelect : bool) (profiles : ProfilesResponse.t)
    (w : World) (s : SelectedProfile.t) :
  selected_profile (store w) = Some (Holds s) ->
  reusable (Some s) profiles = true ->
  ProfileManager.select autoSelect profiles w = (Return (Some s), w).
Proof.
  intros Hsaved Hreusable.
  unfold ProfileManager.select.
  unfold bind at 1. rewrite loadSelectedProfile_returns, Hsaved.
  cbn [TokenStore.read]. unfold reusable in Hreusable.
  now rewrite Hreusable.
Qed.

(** X13: selection is idempotent.  Once [select] has returned a profile,
    every later [select] on the same profile set returns that same
    selection, with its original instant, writes nothing, and does so
    whether auto-selection is enabled or not and whatever time has
    passed. *)
Theorem select_is_idempotent (autoSelect autoSelect' : bool)
    (profiles : ProfilesResponse.t) (w w1 w2 : World)
    (s : SelectedProfile.t) :
  ProfileManager.select autoSelect profiles w = (Return (Some s), w1) ->
  store w2 = store w1 ->
  ProfileManager.select autoSelect' profiles w2 = (Return (Some s), w2).
Proof.
  intros Hfirst Hstore.
  destruct (ProfilesResponse.profiles profiles) as [|first others] eqn:Hp.
  - rewrite (select_nobody autoSelect profiles w Hp) in Hfirst.
    destruct autoSelect; discriminate.
  - rewrite (select_resolution autoSelect profiles w first others Hp)
      in Hfirst.
    assert (Hbuilt : (Return (Some (selection_of first w)),
                      with_selection (selection_of first w) w)
                     = (Return (Some s), w1) ->
                     ProfileManager.select autoSelect' profiles w2
                     = (Return (Some s), w2)).
    { intros Hrun. injection Hrun as <- <-.
      apply select_reuses; [now rewrite Hstore|].
      apply (reusable_in _ _ first); [rewrite Hp; now left|reflexivity]. }
    destruct (reusable _ _) eqn:Hreusable.
    + injection Hfirst as Hsaved <-.
      apply select_reuses; [|now rewrite <- Hsaved].
      rewrite Hstore.
      destruct (selected_profile (store w)) as [[|doc]|];
        cbn in Hsaved; congruence.
    + destruct others as [|second others]; [auto|].
      destruct autoSelect; [auto|discriminate].
Qed.

Lemma select_is_idempotent_witness :
  let w := Scenario.world 1500000 Scenario.empty_store Scenario.silent in
  let chosen := SelectedProfile.mk "abc123" "Steve" 1500 in
  let later := Scenario.world 99000000 (store (with_selection chosen w))
                 Scenario.silent in
  ProfileManager.select true Scenario.both w
  = (Return (Some chosen), with_selection chosen w)
  /\ ProfileManager.select false Scenario.both later
     = (Return (Some chosen), later).
Proof.
  intros w chosen later. split; [reflexivity|].
  exact (select_is_idempotent true false Scenario.both w _ later chosen
           eq_refl eq_refl).
Defined.





Lemma resolve_returns (profiles : ProfilesResponse.t) (selector : string)
    (w w' : World) (s : SelectedProfile.t) :
  ProfileManager.resolve profiles selector w = (Return s, w') ->
  w' = w
  /\ exists p, In p (ProfilesResponse.profiles profiles)
               /\ s = selection_of p w
               /\ (JS.test_digits selector = false -> Profile.uuid p = selector).
Proof.
  unfold ProfileManager.resolve, ProfileManager.build_from.
  destruct (JS.test_digits selector).
  - destruct (_ || _); [discriminate|].
    destruct (nth_error _ _) as [p|] eqn:Hnth; [|discriminate].
    rewrite build_returns. intros Hrun. injection Hrun as <- <-.
    split; [reflexivity|]. exists p.
    split; [eapply nth_error_In; eassumption|].
    split; [reflexivity|discriminate].
  - destruct (find _ _) as [p|] eqn:Hfind; [|discriminate].
    rewrite build_returns. intros Hrun. injection Hrun as <- <-.
    apply find_some in Hfind. destruct Hfind as (Hin & Heq).
    split; [reflexivity|]. exists p.
    split; [assumption|]. split; [reflexivity|].
    intros _. now apply String.eqb_eq.
Qed.

(** X15: selecting by UUID, and what becomes of an explicit selection.
    A selector that is not a numeral and is the UUID of a profile of the
    set selects a profile with that UUID and saves it.  Whatever
    [setSelection] returns belongs to the set, and every later [select]
    on that set returns it unchanged, with or without auto-selection. *)
Theorem explicit_selection_is_kept (profiles : ProfilesResponse.t)
    (selector : string) (w : World) :
  (JS.test_digits selector = false ->
   (exists p, In p (ProfilesResponse.profiles profiles)
              /\ Profile.uuid p = selector) ->
   exists p, In p (ProfilesResponse.profiles profiles)
             /\ Profile.uuid p = selector
             /\ ProfileManager.setSelection profiles selector w
                = (Return (selection_of p w),
                   with_selection (selection_of p w) w))
  /\ (forall (s : SelectedProfile.t) (w1 : World),
      ProfileManager.setSelection profiles selector w = (Return s, w1) ->
      (exists p, In p (ProfilesResponse.profiles profiles)
                 /\ s = selection_of p w)
      /\ forall (autoSelect : bool) (w2 : World),
          store w2 = store w1 ->
          ProfileManager.select autoSelect profiles w2
          = (Return (Some s), w2)).
Proof.
  split.
  - intros Hdigits (q & Hin & Hq).
    destruct (find (fun p => String.eqb (Profile.uuid p) selector)
                   (ProfilesResponse.profiles profiles)) as [p|] eqn:Hfind.
    + pose proof (find_some _ _ Hfind) as (Hp & Heq).
      apply String.eqb_eq in Heq.
      exists p. split; [assumption|]. split; [assumption|].
      unfold ProfileManager.setSelection, ProfileManager.resolve.
      unfold bind at 1. rewrite Hdigits, Hfind. reflexivity.
    + now destruct (proj1 (find_none_iff _ _) Hfind q Hin).
  - intros s w1 Hrun.
    pose proof (setSelection_persists _ _ _ _ _ Hrun) as Hstore.
    unfold ProfileManager.setSelection in Hrun.
    unfold bind at 1 in Hrun.
    destruct (ProfileManager.resolve profiles selector w)
      as [[s'|e|c] w0] eqn:Hresolve; try discriminate.
    apply resolve_returns in Hresolve.
    destruct Hresolve as (-> & p & Hin & Hs & _).
    assert (s' = s) as -> by (run; congruence).
    split; [eauto|].
    intros autoSelect w2 Hw2.
    apply select_reuses.
    + rewrite Hw2, Hstore. reflexivity.
    + apply (reusable_in _ _ p); [assumption|]. now rewrite Hs.
Qed.

Lemma explicit_selection_is_kept_witness :
  let w := Scenario.world 1500000 Scenario.empty_store Scenario.silent in
  let alex := SelectedProfile.mk "def456" "Alex" 1500 in
  ProfileManager.setSelection Scenario.both "def456" w
  = (Return alex, with_selection alex w)
  /\ ProfileManager.select true Scenario.both (with_selection alex w)
     = (Return (Some alex), with_selection alex w).
Proof.
  intros w alex. split; [reflexivity|].
  exact (proj2 (proj2 (explicit_selection_is_kept Scenario.both "def456" w)
                  alex (with_selection alex w) eq_refl)
           true (with_selection alex w) eq_refl).
Defined.

(** ** The commands of the CLI *)

Lemma getProfiles_trace (accessToken : string) (w w' : World)
    (out : Outcome ProfilesResponse.t) :
  OAuthClient.getProfiles accessToken w = (out, w') ->
  sent w' = GetProfiles accessToken :: sent w
  /\ oauth_tokens (store w') = oauth_tokens (store w)
  /\ (forall c, out <> Exit c).
Proof.
  unfold OAuthClient.getProfiles. run.
  destruct (profiles_endpoint (remote w) _) as [|status [body|]]; run;
    try destruct (ok status); run;
    intros Hrun; injection Hrun as <- <-; repeat split; discriminate.
Qed.

Lemma select_trace (autoSelect : bool) (profiles : ProfilesResponse.t)
    (w w' : World) (out : Outcome (option SelectedProfile.t)) :
  ProfileManager.select autoSelect profiles w = (out, w') ->
  sent w' = sent w
  /\ oauth_tokens (store w') = oauth_tokens (store w)
  /\ (forall c, out <> Exit c).
Proof.
  destruct (ProfilesResponse.profiles profiles) as [|first others] eqn:Hp.
  - rewrite (select_nobody autoSelect profiles w Hp).
    destruct autoSelect; intros Hrun; injection Hrun as <- <-;
      repeat split; discriminate.
  - rewrite (select_resolution autoSelect profiles w first others Hp).
    destruct (reusable _ _); [|destruct others; [|destruct autoSelect]];
      intros Hrun; injection Hrun as <- <-; repeat split; discriminate.
Qed.

Section Commands.
Context `{Runtime}.
Variable autoSelect : bool.

Lemma create_trace (profileUuid accessToken : string) (w w' : World)
    (out : Outcome SessionTokens.t) :
  SessionManager.create profileUuid accessToken w = (out, w') ->
  sent w' = SessionNew accessToken profileUuid :: sent w
  /\ oauth_tokens (store w') = oauth_tokens (store w)
  /\ (forall c, out <> Exit c).
Proof.
  destruct (session_endpoint (remote w)
              (SessionNew accessToken profileUuid :: sent w))
    as [|status body] eqn:Hreply.
  - unfold SessionManager.create. run. rewrite Hreply.
    intros Hrun. injection Hrun as <- <-. repeat split; discriminate.
  - rewrite (create_cases _ _ _ _ _ Hreply).
    destruct body as [data|];
      [destruct (JS.truthy (SessionResponse.error data));
       [|destruct (complete data)]|];
      intros Hrun; injection Hrun as <- <-; repeat split; discriminate.
Qed.

(** X16: the commands that need the OAuth credential check for it
    first.  When [loadOAuthTokens] gives [null] (no file, an unreadable
    file, or a file whose access or refresh token is empty), [refresh],
    [session] and [export] leave the process with exit code 1 without
    having sent a request or written a file, also when a session
    credential is stored; so does [profile list] when no profile list is
    cached. *)
Theorem commands_need_oauth (w : World) (json : bool) :
  fst (TokenStore.loadOAuthTokens w) = Return None ->
  AuthCli.refresh autoSelect w = (Exit 1, w)
  /\ AuthCli.session autoSelect json w = (Exit 1, w)
  /\ AuthCli.export json w = (Exit 1, w)
  /\ (forall rest,
        TokenStore.read (profiles_cache (store w)) = None ->
        AuthCli.profile ("list" :: rest) json w = (Exit 1, w)
        /\ AuthCli.profile [] json w = (Exit 1, w)).
Proof.
  intros Hnone.
  assert (Hload : TokenStore.loadOAuthTokens w = (Return None, w)).
  { revert Hnone. unfold TokenStore.loadOAuthTokens. run.
    destruct (TokenStore.read (oauth_tokens (store w))) as [data|];
      [|reflexivity].
    destruct (_ || _); [reflexivity|discriminate]. }
  split; [unfold AuthCli.refresh, bind; now rewrite Hload|].
  split; [unfold AuthCli.session, bind; now rewrite Hload|].
  split; [unfold AuthCli.export, bind; now rewrite Hload|].
  intros rest Hcache.
  split; unfold AuthCli.profile; cbn [nth_error JS.nullish];
    change (String.eqb "list" "list") with true; cbv iota;
    cbv [bind TokenStore.loadProfiles get_store ret]; cbv beta iota;
    rewrite Hcache, Hload; reflexivity.
Qed.

(** X17: [session] works with the stored access token as it is.  It
    never asks for an OAuth refresh, however old the credential: what it
    sends is one profile request and, if a profile is selected, one
    session creation, both with the stored access token; the OAuth file
    is left as it was, and the command never exits by itself once the
    credential is found. *)
Theorem session_uses_stored_token (json : bool) (w w' : World)
    (oauth : OAuthTokens.t) (out : Outcome unit) :
  TokenStore.loadOAuthTokens w = (Return (Some oauth), w) ->
  AuthCli.session autoSelect json w = (out, w') ->
  let token := OAuthTokens.accessToken oauth in
  (sent w' = GetProfiles token :: sent w
   \/ exists uuid,
       sent w' = SessionNew token uuid :: GetProfiles token :: sent w)
  /\ oauth_tokens (store w') = oauth_tokens (store w)
  /\ (forall c, out <> Exit c).
Proof.
  intros Hload. unfold AuthCli.session.
  unfold bind at 1. rewrite Hload.
  unfold bind at 1.
  destruct (OAuthClient.getProfiles (OAuthTokens.accessToken oauth) w)
    as [fetched w1] eqn:Hfetch.
  apply getProfiles_trace in Hfetch.
  destruct Hfetch as (Hsent1 & Hoauth1 & Hexit1).
  destruct fetched as [profiles|e|c];
    [|intros Hrun; injection Hrun as <- <-;
      (split; [now left|split; [assumption|discriminate]])
     |now destruct (Hexit1 c)].
  unfold bind at 1.
  destruct (ProfileManager.select autoSelect profiles w1)
    as [chosen w2] eqn:Hselect.
  apply select_trace in Hselect.
  destruct Hselect as (Hsent2 & Hoauth2 & Hexit2).
  destruct chosen as [[selected|]|e|c];
    [| |intros Hrun; injection Hrun as <- <-
      |now destruct (Hexit2 c)];
    try (split; [left; congruence|split; [congruence|discriminate]]).
  - unfold bind at 1.
    destruct (SessionManager.create (SelectedProfile.uuid selected)
                (OAuthTokens.accessToken oauth) w2)
      as [created w3] eqn:Hcreate.
    apply create_trace in Hcreate.
    destruct Hcreate as (Hsent3 & Hoauth3 & Hexit3).
    destruct created as [t|e|c]; [| |now destruct (Hexit3 c)];
      intros Hrun; injection Hrun as <- <-;
      (split; [right; exists (SelectedProfile.uuid selected); congruence|]);
      (split; [congruence|discriminate]).
  - intros Hrun. injection Hrun as <- <-.
    split; [left; congruence|split; [congruence|discriminate]].
Qed.

End Commands.

Lemma commands_need_oauth_witness :
  let blank :=
    mkStore (Some (Holds (OAuthFile.mk (Some "at-1") (Some "")
                                       (Some 5000) (Some 1400))))
            (Some (Holds Scenario.session)) None None [] in
  let w := Scenario.world 1500000 blank Scenario.stale_session in
  fst (TokenStore.loadOAuthTokens w) = Return None
  /\ @AuthCli.refresh Scenario.runtime true w = (Exit 1, w)
  /\ @AuthCli.session Scenario.runtime true false w = (Exit 1, w).
Proof.
  intros blank w. split; [reflexivity|].
  destruct (@commands_need_oauth Scenario.runtime true w false eq_refl)
    as (Hrefresh & Hsession & _).
  split; assumption.
Defined.

Lemma session_uses_stored_token_witness :
  let w := Scenario.world 1500000 Scenario.stored Scenario.stale_session in
  let after := @AuthCli.session Scenario.runtime true false w in
  TokenStore.loadOAuthTokens w = (Return (Some Scenario.oauth), w)
  /\ (sent (snd after) = GetProfiles "at-1" :: sent w
      \/ exists uuid,
          sent (snd after)
          = SessionNew "at-1" uuid :: GetProfiles "at-1" :: sent w)
  /\ oauth_tokens (store (snd after)) = oauth_tokens (store w).
Proof.
  intros w after. split; [reflexivity|].
  destruct (@session_uses_stored_token Scenario.runtime true false w
              (snd after) Scenario.oauth (fst after) eq_refl
              (surjective_pairing after)) as (Hsent & Hoauth & _).
  split; assumption.
Defined.

Lemma setSelection_trace (profiles : ProfilesResponse.t) (selector : string)
    (w w' : World) (out : Outcome SelectedProfile.t) :
  ProfileManager.setSelection profiles selector w = (out, w') ->
  sent w' = sent w /\ (forall e, out = Throw e -> w' = w).
Proof.
  unfold ProfileManager.setSelection, ProfileManager.resolve,
    ProfileManager.build_from. run.
  destruct (JS.test_digits selector).
  - destruct (_ || _); run;
      [intros Hrun; injection Hrun as <- <-; split; trivial|].
    destruct (nth_error _ _); run;
      intros Hrun; injection Hrun as <- <-; split; trivial; discriminate.
  - destruct (find _ _); run;
      intros Hrun; injection Hrun as <- <-; split; trivial; discriminate.
Qed.

(** X18: the [profile] command.  [profile select] works on the cached
    profile list only: it never sends a request; it exits with code 1
    when no selector is given or no list is cached, and otherwise does
    what [setSelection] does on the cached list.  [profile list], which
    is also what [profile] alone means, sends nothing and writes nothing
    when a list is cached.  Any other sub-command returns normally
    without doing anything. *)
Theorem profile_command (json : bool) (w : World) :
  (forall rest out w',
      AuthCli.profile ("select" :: rest) json w = (out, w') ->
      sent w' = sent w)
  /\ (forall rest,
      JS.truthy (nth_error rest 0) = false
      \/ TokenStore.read (profiles_cache (store w)) = None ->
      AuthCli.profile ("select" :: rest) json w = (Exit 1, w))
  /\ (forall rest selector profiles,
      nth_error rest 0 = Some selector -> selector <> "" ->
      TokenStore.read (profiles_cache (store w)) = Some profiles ->
      AuthCli.profile ("select" :: rest) json w
      = (discard (fst (ProfileManager.setSelection profiles selector w)),
         snd (ProfileManager.setSelection profiles selector w)))
  /\ (forall rest profiles,
      TokenStore.read (profiles_cache (store w)) = Some profiles ->
      AuthCli.profile ("list" :: rest) json w = (Return tt, w)
      /\ AuthCli.profile [] json w = (Return tt, w))
  /\ (forall sub rest,
      sub <> "list" -> sub <> "select" ->
      AuthCli.profile (sub :: rest) json w = (Return tt, w)).
Proof.
  assert (Hselect : forall rest,
             AuthCli.profile ("select" :: rest) json w
             = if negb (JS.truthy (nth_error rest 0)) then (Exit 1, w)
               else match TokenStore.read (profiles_cache (store w)) with
                    | None => (Exit 1, w)
                    | Some profiles =>
                        (discard
                           (fst (ProfileManager.setSelection profiles
                                   (JS.non_null (nth_error rest 0)) w)),
                         snd (ProfileManager.setSelection profiles
                                (JS.non_null (nth_error rest 0)) w))
                    end).
  { intros rest. unfold AuthCli.profile.
    change (nth_error ("select" :: rest) 0) with (Some "select").
    change (nth_error ("select" :: rest) 1) with (nth_error rest 0).
    cbn [JS.nullish].
    change (String.eqb "select" "list") with false.
    change (String.eqb "select" "select") with true. cbv iota.
    destruct (JS.truthy (nth_error rest 0)); cbn [negb]; [|reflexivity].
    cbv [bind TokenStore.loadProfiles get_store ret exit]. cbv beta iota.
    destruct (TokenStore.read (profiles_cache (store w))) as [profiles|];
      [|reflexivity].
    destruct (ProfileManager.setSelection profiles _ w) as [[s|e|c] w1];
      reflexivity. }
  split; [|split; [|split; [|split]]].
  - intros rest out w'. rewrite Hselect.
    destruct (JS.truthy (nth_error rest 0)); cbn [negb];
      [|intros Hrun; now injection Hrun as <- <-].
    destruct (TokenStore.read (profiles_cache (store w))) as [profiles|];
      [|intros Hrun; now injection Hrun as <- <-].
    destruct (ProfileManager.setSelection profiles _ w) as [o w1] eqn:Hset.
    apply setSelection_trace in Hset. destruct Hset as (Hsent & _).
    cbn [fst snd]. intros Hrun. now injection Hrun as <- <-.
  - intros rest Hmissing. rewrite Hselect.
    destruct (JS.truthy (nth_error rest 0)); cbn [negb]; [|reflexivity].
    destruct Hmissing as [Hno|Hno]; [discriminate|now rewrite Hno].
  - intros rest selector profiles Hselector Hne Hcache.
    rewrite Hselect, Hselector, Hcache, (truthy_Some selector Hne).
    reflexivity.
  - intros rest profiles Hcache.
    split; unfold AuthCli.profile; cbn [nth_error JS.nullish];
      change (String.eqb "list" "list") with true; cbv iota;
      cbv [bind TokenStore.loadProfiles TokenStore.loadSelectedProfile
           get_store ret]; cbv beta iota;
      rewrite Hcache; reflexivity.
  - intros sub rest Hlist Hsel.
    unfold AuthCli.profile. cbn [nth_error JS.nullish].
    apply String.eqb_neq in Hlist, Hsel. now rewrite Hlist, Hsel.
Qed.

Lemma profile_command_witness :
  let cached := TokenStore.write_profiles Scenario.both Scenario.empty_store in
  let w := Scenario.world 1500000 cached Scenario.silent in
  let alex := SelectedProfile.mk "def456" "Alex" 1500 in
  AuthCli.profile ["select"; "2"] false w = (Return tt, with_selection alex w)
  /\ AuthCli.profile ["select"] false w = (Exit 1, w).
Proof.
  intros cached w alex.
  destruct (profile_command false w) as (_ & Hmissing & Hselect & _).
  split.
  - exact (Hselect ["2"] "2" Scenario.both eq_refl
             ltac:(discriminate) eq_refl).
  - exact (Hmissing [] (or_introl eq_refl)).
Defined.

(** X19: [parseOptions] recognises its flags wherever they stand.  What
    it leaves in [args] is the arguments that are not flags, in their
    order; [help] is set exactly when [-h] or [--help] occurs, [json]
    exactly when [--json] occurs; and parsing what is left finds no flag
    and removes nothing. *)
Theorem parseOptions_strips_flags (args : list string) :
  let kept := snd (AuthCli.parseOptions args) in
  kept = filter (fun a => negb (is_help_flag a || is_json_flag a)) args
  /\ AuthCli.help (fst (AuthCli.parseOptions args))
     = existsb is_help_flag args
  /\ AuthCli.json (fst (AuthCli.parseOptions args))
     = existsb is_json_flag args
  /\ AuthCli.parseOptions kept = (AuthCli.mkOptions false false, kept).
Proof.
  cbv zeta.
  assert (Hkept : snd (AuthCli.parseOptions args)
                  = filter (fun a => negb (is_help_flag a || is_json_flag a))
                           args
                  /\ AuthCli.help (fst (AuthCli.parseOptions args))
                     = existsb is_help_flag args
                  /\ AuthCli.json (fst (AuthCli.parseOptions args))
                     = existsb is_json_flag args).
  { induction args as [|a later (IHkept & IHhelp & IHjson)];
      [repeat split|].
    cbn [AuthCli.parseOptions filter existsb].
    destruct (AuthCli.parseOptions later) as [options kept].
    cbn [fst snd] in *.
    unfold is_help_flag, is_json_flag in *.
    destruct (String.eqb a "-h" || String.eqb a "--help") eqn:Hhelp;
      cbn [orb negb fst snd AuthCli.help AuthCli.json].
    - apply orb_true_iff in Hhelp.
      assert (String.eqb a "--json" = false) as ->
        by (destruct Hhelp as [Ha|Ha]; apply String.eqb_eq in Ha;
            subst a; reflexivity).
      cbn [orb]. repeat split; assumption.
    - destruct (String.eqb a "--json");
        cbn [orb negb fst snd AuthCli.help AuthCli.json];
        repeat split; try assumption.
      now rewrite IHkept. }
  destruct Hkept as (Hkept & Hhelp & Hjson).
  repeat split; try assumption.
  rewrite Hkept. clear.
  induction args as [|a later IH]; [reflexivity|].
  cbn [filter].
  destruct (is_help_flag a || is_json_flag a) eqn:Hflag; cbn [negb];
    [assumption|].
  cbn [AuthCli.parseOptions]. rewrite IH.
  apply orb_false_iff in Hflag. destruct Hflag as (Hhelp & Hjson).
  unfold is_help_flag, is_json_flag in Hhelp, Hjson.
  now rewrite Hhelp, Hjson.
Qed.

Section RefreshPaths.
Context `{Runtime}.
Variable autoSelect : bool.

(** X20: the order of the [refresh] command.  The OAuth credential is
    refreshed first, and when that fails the command fails with the same
    error and nothing else has happened: the session is not touched.
    Without a stored session the command ends after the OAuth refresh.
    When the refresh of the session returns a credential the command
    ends there too: no profile is fetched and no session is created. *)
Theorem refresh_command_order (w w1 : World) (oauth : OAuthTokens.t) :
  TokenStore.loadOAuthTokens w = (Return (Some oauth), w) ->
  (forall e,
      OAuthClient.refreshToken (OAuthTokens.refreshToken oauth) w
      = (Throw e, w1) ->
      AuthCli.refresh autoSelect w = (Throw e, w1)
      /\ store w1 = store w
      /\ sent w1 = RefreshToken (OAuthTokens.refreshToken oauth) :: sent w)
  /\ (forall refreshed,
      OAuthClient.refreshToken (OAuthTokens.refreshToken oauth) w
      = (Return refreshed, w1) ->
      (TokenStore.read (session_tokens (store w1)) = None ->
       AuthCli.refresh autoSelect w = (Return tt, w1))
      /\ (forall session renewed w2,
            TokenStore.read (session_tokens (store w1)) = Some session ->
            SessionManager.refresh (SessionTokens.sessionToken session) w1
            = (Return (Some renewed), w2) ->
            AuthCli.refresh autoSelect w = (Return tt, w2)
            /\ sent w2
               = SessionRefresh (SessionTokens.sessionToken session)
                   :: sent w1)).
Proof.
  intros Hload. split.
  - intros e Hoauth.
    split; [unfold AuthCli.refresh, bind; now rewrite Hload, Hoauth|].
    destruct (refresh_token_failure_frame _ _ _ _ Hoauth)
      as (Hstore & Hsent & _).
    split; assumption.
  - intros refreshed Hoauth. split.
    + intros Hnone.
      unfold AuthCli.refresh, bind. rewrite Hload, Hoauth.
      unfold TokenStore.loadSessionTokens, bind, get_store, ret.
      now rewrite Hnone.
    + intros session renewed w2 Hsession Hrenew.
      split.
      * unfold AuthCli.refresh, bind. rewrite Hload, Hoauth.
        unfold TokenStore.loadSessionTokens at 1.
        unfold bind, get_store, ret.
        now rewrite Hsession, Hrenew.
      * revert Hrenew. unfold SessionManager.refresh. run.
        destruct (session_endpoint (remote w1) _) as [|status [data|]];
          run; try discriminate;
          destruct (ok status); run; try discriminate.
        destruct (_ && _); [|discriminate].
        unfold SessionManager.parseExpiry.
        destruct (Date_parse _); run;
          intros Hrun; now injection Hrun as _ <-.
Qed.

End RefreshPaths.

Lemma refresh_command_order_witness :
  let only_oauth :=
    mkStore (Some (Holds (oauth_document Scenario.oauth))) None None None [] in
  let w := Scenario.world 1500000 only_oauth Scenario.stale_session in
  let after := OAuthClient.refreshToken "rt-1" w in
  TokenStore.loadOAuthTokens w = (Return (Some Scenario.oauth), w)
  /\ @AuthCli.refresh Scenario.runtime true w = (Return tt, snd after)
  /\ sent (snd after) = [RefreshToken "rt-1"].
Proof.
  intros only_oauth w after. split; [reflexivity|].
  destruct (@refresh_command_order Scenario.runtime true w (snd after)
              Scenario.oauth eq_refl) as (_ & Hok).
  split; [|reflexivity].
  refine (proj1 (Hok (OAuthTokens.mk "at-2" "rt-1" 8700 1500) _) _);
    reflexivity.
Defined.

(** ** Configuration *)

Lemma lower_ascii_letter (c l : ascii) :
  ((97 <=? N_of_ascii l) && (N_of_ascii l <=? 122))%N = true ->
  JS.lower_ascii c = l
  <-> c = l \/ c = ascii_of_N (N_of_ascii l - 32).
Proof.
  intros Hl. apply andb_prop in Hl as [Hl1 Hl2].
  apply N.leb_le in Hl1, Hl2.
  pose proof (N_ascii_bounded c) as Hc.
  pose proof (N_ascii_bounded l) as Hlb.
  unfold JS.lower_ascii.
  destruct ((65 <=? N_of_ascii c) && (N_of_ascii c <=? 90))%N eqn:Hcap.
  - apply andb_prop in Hcap as [Hc1 Hc2]. apply N.leb_le in Hc1, Hc2.
    split.
    + intros <-. right.
      rewrite N_ascii_embedding by lia.
      replace (N_of_ascii c + 32 - 32)%N with (N_of_ascii c) by lia.
      now rewrite ascii_N_embedding.
    + intros [-> | ->]; [lia|].
      rewrite N_ascii_embedding by lia.
      replace (N_of_ascii l - 32 + 32)%N with (N_of_ascii l) by lia.
      now rewrite ascii_N_embedding.
  - split; [now left|].
    intros [-> | ->]; [reflexivity|].
    rewrite N_ascii_embedding in Hcap by lia.
    apply andb_false_iff in Hcap as [Hcap|Hcap];
      apply N.leb_gt in Hcap; lia.
Qed.

(** X21: a flag of the configuration is on only when its variable
    spells [true], in any mix of capitals and small letters; every other
    value of the variable, [1], [yes] and the empty string among them,
    turns the flag off, also where the default is on.  The default is
    used only when the variable is not set. *)
Theorem parseBool_set_variable (value : string) (fallback : bool) :
  (Config.parseBool (Some value) fallback = true <-> spells_true value)
  /\ Config.parseBool None fallback = fallback.
Proof.
  split; [|reflexivity].
  unfold Config.parseBool, spells_true. rewrite String.eqb_eq.
  split.
  - destruct value as [|c1 [|c2 [|c3 [|c4 [|c5 rest]]]]];
      cbn [JS.toLowerCase]; try discriminate.
    intros H. injection H as H1 H2 H3 H4.
    apply lower_ascii_letter in H1, H2, H3, H4; try reflexivity.
    exists c1, c2, c3, c4. repeat split; assumption.
  - intros (c1 & c2 & c3 & c4 & -> & H1 & H2 & H3 & H4).
    cbn [JS.toLowerCase].
    apply (lower_ascii_letter c1 "t" eq_refl) in H1.
    apply (lower_ascii_letter c2 "r" eq_refl) in H2.
    apply (lower_ascii_letter c3 "u" eq_refl) in H3.
    apply (lower_ascii_letter c4 "e" eq_refl) in H4.
    now rewrite H1, H2, H3, H4.
Qed.

Lemma trimStart_printable (c : ascii) (s : string) :
  printable c = true -> JS.trimStart (String c s) = String c s.
Proof.
  unfold printable. intros H. apply andb_prop in H as [H1 H2].
  apply N.leb_le in H1, H2.
  cbn [JS.trimStart]. cbv zeta.
  assert (E32 : ((9 <=? N_of_ascii c) && (N_of_ascii c <=? 13)
                 || (N_of_ascii c =? 32))%N = false).
  { apply orb_false_iff. split.
    - apply andb_false_iff. right. apply N.leb_gt. lia.
    - apply N.eqb_neq. lia. }
  assert (E194 : (N_of_ascii c =? 194)%N = false) by (apply N.eqb_neq; lia).
  assert (E225 : (N_of_ascii c =? 225)%N = false) by (apply N.eqb_neq; lia).
  assert (E226 : (N_of_ascii c =? 226)%N = false) by (apply N.eqb_neq; lia).
  assert (E227 : (N_of_ascii c =? 227)%N = false) by (apply N.eqb_neq; lia).
  assert (E239 : (N_of_ascii c =? 239)%N = false) by (apply N.eqb_neq; lia).
  rewrite E32.
  destruct s as [|c1 [|c2 s3]]; try reflexivity;
    rewrite E194; cbn [andb]; try reflexivity.
  now rewrite E225, E226, E227, E239.
Qed.

Lemma digit_printable (c : ascii) :
  JS.is_digit c = true ->
  printable c = true /\ Ascii.eqb c "+" = false /\ Ascii.eqb c "-" = false.
Proof.
  unfold JS.is_digit, printable. intros H.
  apply andb_prop in H as [H1 H2]. apply N.leb_le in H1, H2.
  split; [|split].
  - apply andb_true_intro. split; apply N.leb_le; lia.
  - apply Ascii.eqb_neq. intros ->. cbn in H1, H2. lia.
  - apply Ascii.eqb_neq. intros ->. cbn in H1, H2. lia.
Qed.

Lemma leading_digits_append (digits rest : string) :
  JS.all_digits digits = true -> ends_numeral rest = true ->
  JS.leading_digits (digits ++ rest) = digits.
Proof.
  intros Hd Hr. induction digits as [|c digits IH]; cbn in *.
  - destruct rest as [|c rest]; [reflexivity|].
    cbn in Hr |- *. apply negb_true_iff in Hr. now rewrite Hr.
  - apply andb_prop in Hd as [Hc Hd]. rewrite Hc. f_equal. now apply IH.
Qed.

Lemma parseInt10_numeral (digits rest : string) :
  JS.test_digits digits = true -> ends_numeral rest = true ->
  JS.parseInt10 (digits ++ rest) = Some (JS.parseInt digits)
  /\ JS.parseInt10 ("-" ++ digits ++ rest) = Some (- JS.parseInt digits)
  /\ JS.parseInt10 ("+" ++ digits ++ rest) = Some (JS.parseInt digits).
Proof.
  intros Hd Hr.
  destruct digits as [|c digits]; [discriminate|].
  cbn [JS.test_digits] in Hd.
  pose proof (leading_digits_append _ _ Hd Hr) as Hlead.
  cbn [JS.all_digits] in Hd. apply andb_prop in Hd as [Hc _].
  destruct (digit_printable c Hc) as (Hp & Hplus & Hminus).
  unfold JS.parseInt10, JS.parseInt.
  repeat split.
  - change (String c digits ++ rest) with (String c (digits ++ rest)) in *.
    rewrite (trimStart_printable _ _ Hp), Hminus, Hplus.
    cbv beta iota zeta. now rewrite Hlead.
  - change ("-" ++ String c digits ++ rest)
      with (String "-" (String c digits ++ rest)).
    rewrite (trimStart_printable "-" _ eq_refl).
    change (Ascii.eqb "-" "-") with true. cbv beta iota zeta.
    now rewrite Hlead.
  - change ("+" ++ String c digits ++ rest)
      with (String "+" (String c digits ++ rest)).
    rewrite (trimStart_printable "+" _ eq_refl).
    change (Ascii.eqb "+" "-") with false.
    change (Ascii.eqb "+" "+") with true. cbv beta iota zeta.
    now rewrite Hlead.
Qed.

(** X22: [parseNumber] reads the numeral a value begins with and ignores
    what follows it: [5520/udp] gives 5520.  A sign is accepted, and no
    range is imposed: the port of the configuration may come out as 0,
    as a negative number or above 65535.  (Up to 2^53, where the
    numbers of JavaScript are exact.) *)
Theorem parseNumber_reads_leading_numeral
  (digits rest : string) (fallback : Z) :
  JS.test_digits digits = true ->
  ends_numeral rest = true ->
  JS.parseInt digits <= 9007199254740992 ->
  Config.parseNumber (Some (digits ++ rest)) fallback = JS.parseInt digits
  /\ Config.parseNumber (Some ("-" ++ digits ++ rest)) fallback
     = - JS.parseInt digits
  /\ Config.parseNumber (Some ("+" ++ digits ++ rest)) fallback
     = JS.parseInt digits.
Proof.
  intros Hd Hr _.
  destruct (parseInt10_numeral digits rest Hd Hr) as (H & Hneg & Hpos).
  unfold Config.parseNumber.
  destruct digits as [|c digits]; [discriminate|].
  cbn [JS.truthy JS.non_null JS.nullish negb String.eqb append] in *.
  now rewrite H, Hneg, Hpos.
Qed.

Lemma parseNumber_reads_leading_numeral_witness :
  Config.parseNumber (Some "5520/udp") 25565 = 5520
  /\ Config.parseNumber (Some "-5520/udp") 25565 = -5520
  /\ Config.parseNumber (Some "+5520/udp") 25565 = 5520.
Proof.
  apply (parseNumber_reads_leading_numeral "5520" "/udp" 25565);
    [reflexivity|reflexivity|cbv; discriminate].
Defined.

(** X23: [parseNumber] gives the default, silently, when the variable is
    not set, is empty, or begins with text in which no number can be
    read: a port written [udp/5520] is the default port. *)
Theorem parseNumber_falls_back (value : option string) (fallback : Z) :
  no_numeral value = true ->
  Config.parseNumber value fallback = fallback.
Proof.
  unfold Config.parseNumber.
  destruct value as [[|c rest]|]; try reflexivity.
  cbn [no_numeral JS.truthy JS.non_null JS.nullish negb String.eqb].
  intros H.
  apply andb_prop in H as [H Hminus]. apply andb_prop in H as [H Hplus].
  apply andb_prop in H as [Hp Hd].
  apply negb_true_iff in Hminus, Hplus, Hd.
  unfold JS.parseInt10.
  rewrite (trimStart_printable _ _ Hp), Hminus, Hplus.
  cbv beta iota zeta. cbn [JS.leading_digits]. now rewrite Hd.
Qed.

Lemma parseNumber_falls_back_witness :
  Config.parseNumber (Some "udp/5520") 5520 = 5520
  /\ Config.parseNumber (Some "") 5520 = 5520
  /\ Config.parseNumber None 5520 = 5520.
Proof.
  split; [|split].
  - exact (parseNumber_falls_back (Some "udp/5520") 5520 eq_refl).
  - exact (parseNumber_falls_back (Some "") 5520 eq_refl).
  - exact (parseNumber_falls_back None 5520 eq_refl).
Defined.

Lemma append_cancel (s a b : string) : s ++ a = s ++ b -> a = b.
Proof.
  induction s as [|c s IH]; cbn; [trivial|].
  intros H. injection H as H. now apply IH.
Qed.

(** X24: whatever the environment, and whatever [HYTALE_TOKEN_DIR] is
    set to (the empty string included), the four files of the token
    store are four different files: no record of the store overwrites
    another. *)
Theorem token_files_are_distinct (env : Config.RuntimeEnv) :
  let p := Config.paths (Config.make env) in
  NoDup [ Config.OAUTH_TOKEN_FILE p; Config.SESSION_TOKEN_FILE p;
          Config.PROFILE_CACHE_FILE p; Config.SELECTED_PROFILE_FILE p ].
Proof.
  cbn [Config.paths Config.make Config.OAUTH_TOKEN_FILE
       Config.SESSION_TOKEN_FILE Config.PROFILE_CACHE_FILE
       Config.SELECTED_PROFILE_FILE].
  set (tokenDir := JS.nullish _ _).
  repeat constructor; cbn [In];
    intros H; repeat destruct H as [H|H]; try contradiction;
    apply append_cancel in H; discriminate.
Qed.
